(** * cdpipelines: the JobScript abstraction

    Shallow embedding of [cdpipelines/general.py] (class [JobScript]),
    together with the properties of the job lifecycle: construction, file
    roles, input staging, finalization and submission commands.

    [cdpipelines/rnaseq.py] is not embedded: the module does not compile (a
    positional argument follows a keyword argument in the call at lines
    739-753), so its function [pipeline] has no run to describe. *)

From Stdlib Require Import ZArith String Ascii List Bool Lia.
From Stdlib Require Import SpecFloat.
From stdpp Require Import base gmap strings pretty.

Import ListNotations.
Local Open Scope string_scope.
Local Open Scope Z_scope.

(** ** Python strings *)

Module Py.

Definition nl : string := String "010"%char EmptyString.
Definition tab : string := String "009"%char EmptyString.
Definition slash : ascii := "/"%char.

(** [sep.join(l)] *)
Fixpoint join (sep : string) (l : list string) : string :=
  match l with
  | [] => ""
  | [x] => x
  | x :: r => x ++ sep ++ join sep r
  end.

(** [s.startswith(p)] *)
Fixpoint startswith (p s : string) : bool :=
  match p, s with
  | EmptyString, _ => true
  | String a p', String b s' => Ascii.eqb a b && startswith p' s'
  | String _ _, EmptyString => false
  end.

(** [x in s] for two strings: [x] occurs in [s] as a substring. *)
Fixpoint contains (x s : string) : bool :=
  startswith x s ||
  match s with
  | EmptyString => false
  | String _ s' => contains x s'
  end.

(** [s.split(c)] for a one-character separator. *)
Fixpoint split_on (c : ascii) (s : string) : list string :=
  match s with
  | EmptyString => [""]
  | String a s' =>
      if Ascii.eqb a c then "" :: split_on c s'
      else match split_on c s' with
           | [] => [String a ""]
           | w :: ws => String a w :: ws
           end
  end.

(** [s.endswith('/')] *)
Fixpoint ends_with_slash (s : string) : bool :=
  match s with
  | EmptyString => false
  | String a EmptyString => Ascii.eqb a slash
  | String _ s' => ends_with_slash s'
  end.

(** [s == '/' * len(s)] *)
Fixpoint all_slashes (s : string) : bool :=
  match s with
  | EmptyString => true
  | String a s' => Ascii.eqb a slash && all_slashes s'
  end.

(** [s.rstrip('/')] *)
Fixpoint rstrip_slash (s : string) : string :=
  match s with
  | EmptyString => ""
  | String a s' =>
      match rstrip_slash s' with
      | EmptyString => if Ascii.eqb a slash then "" else String a ""
      | r => String a r
      end
  end.

(** Truthiness of a string and of optional values ([None] and the empty
    string or list are false). *)
Definition truthy (s : string) : bool :=
  match s with EmptyString => false | _ => true end.

Definition truthy_opt (o : option string) : bool :=
  match o with Some s => truthy s | None => false end.

Definition truthy_list {A} (o : option (list A)) : bool :=
  match o with Some (_ :: _) => true | _ => false end.

(** ['{}'.format(n)] for an int. *)
Definition str_int (z : Z) : string := pretty z.

End Py.

(** ** posixpath *)

Module PosixPath.

(** [(p[:i], p[i:])] with [i = p.rfind('/') + 1]. *)
Fixpoint cut_last_slash (p : string) : string * string :=
  match p with
  | EmptyString => ("", "")
  | String c r =>
      match cut_last_slash r with
      | (EmptyString, t) =>
          if Ascii.eqb c Py.slash then (String c "", t) else ("", String c t)
      | (h, t) => (String c h, t)
      end
  end.

(** [os.path.split(p)] *)
Definition split (p : string) : string * string :=
  let (head, tail) := cut_last_slash p in
  if Py.truthy head && negb (Py.all_slashes head)
  then (Py.rstrip_slash head, tail)
  else (head, tail).

(** One step of [os.path.join]: append component [b] to [path]. *)
Definition join_step (path b : string) : string :=
  if Py.startswith "/" b then b
  else if negb (Py.truthy path) || Py.ends_with_slash path then path ++ b
  else path ++ "/" ++ b.

(** [os.path.join(a, *p)] *)
Definition join (a : string) (p : list string) : string :=
  fold_left join_step p a.

End PosixPath.

(** ** Exceptions, results and the state-and-exception monad

    A Python call either returns a value or raises; in both cases the
    effects performed so far (bytes appended to files, attributes assigned
    on [self]) persist. *)

Inductive exn : Set :=
| AssertionError | TypeError | NameError | AttributeError
| OSError | ZeroDivisionError | OverflowError | KeyError.

Inductive result (A : Type) : Type :=
| Ok (a : A)
| Raise (e : exn).
Arguments Ok {A} a.
Arguments Raise {A} e.

Definition M (S A : Type) : Type := S -> result A * S.

Definition ret {S A} (a : A) : M S A := fun s => (Ok a, s).
Definition raise {S A} (e : exn) : M S A := fun s => (Raise e, s).
Definition bind {S A B} (c : M S A) (k : A -> M S B) : M S B :=
  fun s => match c s with
           | (Ok a, s') => k a s'
           | (Raise e, s') => (Raise e, s')
           end.
Definition modify {S} (f : S -> S) : M S unit := fun s => (Ok tt, f s).
Definition of_result {S A} (r : result A) : M S A := fun s => (r, s).

(** [try: c  except OSError: pass]: any other exception passes through. *)
Definition try_except_OSError_pass {S} (c : M S unit) : M S unit :=
  fun s => match c s with
           | (Raise OSError, s') => (Ok tt, s')
           | r => r
           end.

(** [assert b] *)
Definition assert {S} (b : bool) : M S unit :=
  if b then ret tt else raise AssertionError.

Declare Scope py_scope.
Delimit Scope py_scope with py.
Notation "x <- c ;; k" := (bind c (fun x => k))
  (at level 100, c at next level, right associativity) : py_scope.
Notation "c ;; k" := (bind c (fun _ => k))
  (at level 100, right associativity) : py_scope.
Local Open Scope py_scope.

(** Name resolution: a name that is bound in no enclosing scope raises
    [NameError] when it is read. *)
Definition lookup_name {S V} (scope : gmap string V) (x : string) : M S V :=
  match scope !! x with
  | Some v => ret v
  | None => raise NameError
  end.

(** ** Python floats (IEEE 754 binary64) *)

Module PyFloat.

Definition prec : Z := 53.
Definition emax : Z := 1024.

(** [float(z)]: nearest double, [OverflowError] beyond the double range. *)
Definition of_int (z : Z) : result spec_float :=
  match binary_normalize prec emax z 0 false with
  | S754_infinity _ => Raise OverflowError
  | f => Ok f
  end.

Definition is_zero (f : spec_float) : bool :=
  match f with S754_zero _ => true | _ => false end.

(** [m / f] for an int [m] and a float [f]. *)
Definition int_div (m : Z) (f : spec_float) : result spec_float :=
  match of_int m with
  | Raise e => Raise e
  | Ok a => if is_zero f then Raise ZeroDivisionError
            else Ok (SFdiv prec emax a f)
  end.

End PyFloat.

(** Values a caller may pass where an int is documented. *)
Inductive pyval : Type :=
| PyInt (z : Z)
| PyBool (b : bool)
| PyFloatV (f : spec_float)
| PyStr (s : string)
| PyNone.

(** [assert type(v) is int] *)
Definition assert_type_int {S} (v : pyval) : M S Z :=
  match v with
  | PyInt z => ret z
  | _ => raise AssertionError
  end.

(** ** The file system the scripts are written to

    [files] maps the path of every regular file to its contents, [dirs] is
    the set of directories, [tmp_names] is the sequence of names that
    [tempfile] will try. Paths are compared as written: two spellings of
    one path are two paths. The root and the current directory (the parent
    of a relative name of one component) are directories of every world and
    are not listed in [dirs]. *)

Record world : Type := World {
  files : gmap string string;
  dirs : gset string;
  tmp_names : list string
}.

Definition set_files (f : gmap string string -> gmap string string) (w : world) : world :=
  World (f (files w)) (dirs w) (tmp_names w).

(** [os.path.exists(p)] *)
Definition os_path_exists (p : string) (w : world) : bool :=
  bool_decide (is_Some (files w !! p)) || bool_decide (p ∈ dirs w).

(** [p] is a directory: the current directory, the root, or a member of
    [dirs]. A regular file is not. *)
Definition is_directory (p : string) (w : world) : bool :=
  negb (Py.truthy p) || Py.all_slashes p || bool_decide (p ∈ dirs w).

Definition is_dot (c : string) : bool :=
  String.eqb c "." || String.eqb c "..".

(** [os.mkdir(name)]: the name must be new and its parent must be a
    directory. An empty name, an existing name (the root, [x/.] and [x/..]
    included), a missing parent and a parent that is a regular file are all
    [OSError]s (ENOENT, EEXIST, ENOENT, ENOTDIR). The directory is recorded
    without the slashes that may end its name. *)
Definition os_mkdir (name : string) : M world unit :=
  fun w =>
    let d := Py.rstrip_slash name in
    if negb (Py.truthy d)
       || is_dot (snd (PosixPath.split d))
       || os_path_exists d w
       || negb (is_directory (fst (PosixPath.split d)) w)
    then (Raise OSError, w)
    else (Ok tt, World (files w) ({[d]} ∪ dirs w) (tmp_names w)).

(** [head, tail = path.split(name)], and once more on [head] when [tail]
    is empty. *)
Definition components (name : string) : string * string :=
  let (head, tail) := PosixPath.split name in
  if Py.truthy tail then (head, tail) else PosixPath.split head.

(** [os.makedirs(name)]:
<<
    head, tail = path.split(name)
    if not tail:
        head, tail = path.split(head)
    if head and tail and not path.exists(head):
        try:
            makedirs(head, mode)
        except OSError, e:
            if e.errno != errno.EEXIST:
                raise
        if tail == curdir:
            return
    mkdir(name, mode)
>>
    The recursive call is on [head], a proper prefix of [name], so that
    [String.length name] calls suffice ([makedirs_go_fuel]). Its error is
    never EEXIST (the last step of [makedirs(head)] is [mkdir(head)], and
    [head] was just seen not to exist), so it is raised again. *)
Fixpoint makedirs_go (fuel : nat) (name : string) : M world unit :=
  match fuel with
  | O => raise OSError
  | S fuel' =>
      let (head, tail) := components name in
      e <- (fun w => (Ok (Py.all_slashes head || os_path_exists head w), w)) ;;
      if Py.truthy head && Py.truthy tail && negb e then
        makedirs_go fuel' head ;;
        if String.eqb tail "." then ret tt else os_mkdir name
      else os_mkdir name
  end.

(** [os.makedirs(d)]: [None] is not a path, which is a [TypeError] (an
    [AttributeError] from the [os.path.split] of Python 2) and in no
    version an [OSError]. *)
Definition os_makedirs (d : option string) : M world unit :=
  match d with
  | None => raise TypeError
  | Some p => makedirs_go (S (String.length p)) p
  end.

(** [os.remove(p)] *)
Definition os_remove (p : string) : M world unit :=
  fun w => match files w !! p with
           | Some _ => (Ok tt, set_files (delete p) w)
           | None => (Raise OSError, w)
           end.

(** [open(p, "a")] creates the file when it is missing; [f.write(s)] on a
    file opened for appending adds [s] at its end. [open] is taken to
    succeed: the model does not produce the [IOError] of a path that cannot
    be opened. [can_open] below is the condition under which the real call
    succeeds; the statements about construction, where the script is opened
    for the first time, assume it. *)
Definition contents (p : string) (w : world) : string :=
  default "" (files w !! p).

Definition open_append (p : string) : M world unit :=
  modify (fun w => set_files (<[p := contents p w]>) w).

Definition write (p s : string) : M world unit :=
  modify (fun w => set_files (<[p := contents p w ++ s]>) w).


(** [tempfile.NamedTemporaryFile(delete=False).name]: the first candidate
    name that does not exist yet is created empty and returned. *)
Fixpoint first_fresh (names : list string) (w : world) : option (string * list string) :=
  match names with
  | [] => None
  | n :: rest => if os_path_exists n w then first_fresh rest w else Some (n, rest)
  end.

Definition NamedTemporaryFile : M world string :=
  fun w => match first_fresh (tmp_names w) w with
           | None => (Raise OSError, w)
           | Some (n, rest) => (Ok n, World (<[n := ""]> (files w)) (dirs w) rest)
           end.

(** [_make_dir(d)] *)
Definition _make_dir (d : option string) : M world unit :=
  try_except_OSError_pass (os_makedirs d).

(** ** class JobScript *)

Record JobScript : Type := mkJobScript {
  sample_name : string;
  job_suffix : string;
  jobname : string;
  outdir : string;
  tempdir : string;
  threads : Z;
  memory : Z;
  linkdir : option string;
  queue : option string;
  conda_env : option string;
  modules : option (list string);
  out : string;
  err : string;
  wait_for : option (list string);
  copy_input : bool;
  input_files_to_copy : list string;
  output_files_to_copy : list string;
  temp_files_to_delete : list string;
  softlinks : list (string * string);
  delete_sh : bool;
  links_tracklines : string;
  filename : string
}.

Definition with_filename (v : string) (j : JobScript) : JobScript :=
  mkJobScript (sample_name j) (job_suffix j) (jobname j) (outdir j) (tempdir j)
    (threads j) (memory j) (linkdir j) (queue j) (conda_env j) (modules j)
    (out j) (err j) (wait_for j) (copy_input j) (input_files_to_copy j)
    (output_files_to_copy j) (temp_files_to_delete j) (softlinks j)
    (delete_sh j) (links_tracklines j) v.

Definition with_delete_sh (v : bool) (j : JobScript) : JobScript :=
  mkJobScript (sample_name j) (job_suffix j) (jobname j) (outdir j) (tempdir j)
    (threads j) (memory j) (linkdir j) (queue j) (conda_env j) (modules j)
    (out j) (err j) (wait_for j) (copy_input j) (input_files_to_copy j)
    (output_files_to_copy j) (temp_files_to_delete j) (softlinks j)
    v (links_tracklines j) (filename j).

Definition with_input_files_to_copy (v : list string) (j : JobScript) : JobScript :=
  mkJobScript (sample_name j) (job_suffix j) (jobname j) (outdir j) (tempdir j)
    (threads j) (memory j) (linkdir j) (queue j) (conda_env j) (modules j)
    (out j) (err j) (wait_for j) (copy_input j) v
    (output_files_to_copy j) (temp_files_to_delete j) (softlinks j)
    (delete_sh j) (links_tracklines j) (filename j).

Definition with_output_files_to_copy (v : list string) (j : JobScript) : JobScript :=
  mkJobScript (sample_name j) (job_suffix j) (jobname j) (outdir j) (tempdir j)
    (threads j) (memory j) (linkdir j) (queue j) (conda_env j) (modules j)
    (out j) (err j) (wait_for j) (copy_input j) (input_files_to_copy j)
    v (temp_files_to_delete j) (softlinks j)
    (delete_sh j) (links_tracklines j) (filename j).

Definition with_temp_files_to_delete (v : list string) (j : JobScript) : JobScript :=
  mkJobScript (sample_name j) (job_suffix j) (jobname j) (outdir j) (tempdir j)
    (threads j) (memory j) (linkdir j) (queue j) (conda_env j) (modules j)
    (out j) (err j) (wait_for j) (copy_input j) (input_files_to_copy j)
    (output_files_to_copy j) v (softlinks j)
    (delete_sh j) (links_tracklines j) (filename j).

Definition with_softlinks (v : list (string * string)) (j : JobScript) : JobScript :=
  mkJobScript (sample_name j) (job_suffix j) (jobname j) (outdir j) (tempdir j)
    (threads j) (memory j) (linkdir j) (queue j) (conda_env j) (modules j)
    (out j) (err j) (wait_for j) (copy_input j) (input_files_to_copy j)
    (output_files_to_copy j) (temp_files_to_delete j) v
    (delete_sh j) (links_tracklines j) (filename j).

(** A method runs on the object and the file system together. *)
Definition jstate : Type := JobScript * world.

Definition self : M jstate JobScript := fun s => (Ok (fst s), s).
Definition set_self (f : JobScript -> JobScript) : M jstate unit :=
  modify (fun s => (f (fst s), snd s)).
Definition io {A} (c : M world A) : M jstate A :=
  fun s => match c (snd s) with (r, w') => (r, (fst s, w')) end.

(** The keyword arguments of [JobScript.__init__]. *)
Record init_args : Type := InitArgs {
  arg_sample_name : string;
  arg_job_suffix : string;
  arg_outdir : string;
  arg_threads : pyval;
  arg_memory : pyval;
  arg_linkdir : option string;
  arg_webpath : option string;
  arg_tempdir : option string;
  arg_queue : option string;
  arg_conda_env : option string;
  arg_modules : option string;
  arg_wait_for : option (list string);
  arg_copy_input : bool
}.

(** The shell text of the three batched commands. *)
Definition rsync_command (sources : list string) (dest : string) : string :=
  "rsync -avz \" ++ Py.nl ++ Py.tab ++ Py.join ("\" ++ Py.nl ++ Py.tab) sources
  ++ " \" ++ Py.nl ++ " " ++ Py.tab ++ dest ++ Py.nl ++ Py.nl.

Definition rm_command (paths : list string) : string :=
  "rm -r \" ++ Py.nl ++ Py.tab ++ Py.join (" \" ++ Py.nl ++ Py.tab) paths
  ++ Py.nl ++ Py.nl.

Definition rmdir_command (d : string) : string :=
  "rm -r " ++ d ++ Py.nl.

(** [x not in l] for a list of strings. *)
Definition not_in (l : list string) (x : string) : bool :=
  negb (existsb (String.eqb x) l).

Section Env.

(** What the generator reads from its surroundings: [os.path.realpath],
    the output of [_git_info()] and the text Python prints for a float. *)
Variable realpath : string -> string.
Variable git_info : string.
Variable float_str : spec_float -> string.

Definition same_dir (a b : string) : bool :=
  String.eqb (realpath a) (realpath b).

(** [JobScript._set_filename] *)
Definition _set_filename : M jstate unit :=
  s <- self ;;
  io (_make_dir (Some (PosixPath.join (fst (PosixPath.split (outdir s))) ["sh"]))) ;;
  let fn := PosixPath.join (fst (PosixPath.split (outdir s)))
              ["sh"; jobname s ++ ".sh"] in
  set_self (with_filename fn) ;;
  e <- io (fun w => (Ok (os_path_exists fn w), w)) ;;
  if e : bool then
    n <- io NamedTemporaryFile ;;
    set_self (with_filename n) ;;
    set_self (with_delete_sh true)
  else ret tt.

Fixpoint write_modules (f : string) (ms : list string) : M world unit :=
  match ms with
  | [] => ret tt
  | m :: r => write f ("module load " ++ m ++ Py.nl ++ Py.nl) ;; write_modules f r
  end.

(** [JobScript._write_header] *)
Definition _write_header : M jstate unit :=
  s <- self ;;
  let f := filename s in
  io (
    open_append f ;;
    write f ("#!/bin/bash" ++ Py.nl ++ Py.nl) ;;
    (if Py.truthy_opt (queue s) then
       let q := default "" (queue s) in
       assert (existsb (String.eqb q) ["short"; "long"]) ;;
       write f ("#$ -q " ++ q ++ Py.nl)
     else ret tt) ;;
    write f ("#$ -N " ++ jobname s ++ Py.nl) ;;
    t <- of_result (PyFloat.of_int (threads s)) ;;
    v <- of_result (PyFloat.int_div (memory s) t) ;;
    write f ("#$ -l h_vmem=" ++ float_str v ++ Py.nl) ;;
    write f ("#$ -pe smp " ++ Py.str_int (threads s) ++ Py.nl) ;;
    write f ("#$ -S /bin/bash" ++ Py.nl) ;;
    write f ("#$ -o " ++ out s ++ Py.nl) ;;
    write f ("#$ -e " ++ err s ++ Py.nl ++ Py.nl) ;;
    write f ("# Git repository version:" ++ Py.nl ++ "# " ++ git_info ++ Py.nl ++ Py.nl) ;;
    (if Py.truthy_list (modules s) then write_modules f (default [] (modules s))
     else ret tt) ;;
    (if Py.truthy_opt (conda_env s) then
       write f ("source activate " ++ default "" (conda_env s) ++ Py.nl ++ Py.nl)
     else ret tt) ;;
    (if Py.truthy (tempdir s) then
       write f ("mkdir -p " ++ tempdir s ++ Py.nl) ;;
       write f ("cd " ++ tempdir s ++ Py.nl ++ Py.nl)
     else ret tt)).

(** [JobScript.__init__]; the object exists only if no statement raises. *)
Definition __init__ (a : init_args) : M world JobScript :=
  let jobname := arg_sample_name a ++ "_" ++ arg_job_suffix a in
  let outdir := arg_outdir a in
  let tempdir :=
    if Py.truthy_opt (arg_tempdir a)
    then realpath (PosixPath.join (default "" (arg_tempdir a)) [jobname])
    else outdir in
  _make_dir (Some outdir) ;;
  threads <- assert_type_int (arg_threads a) ;;
  memory <- assert_type_int (arg_memory a) ;;
  _make_dir (arg_linkdir a) ;;
  let modules :=
    if Py.truthy_opt (arg_modules a)
    then Some (Py.split_on ","%char (default "" (arg_modules a)))
    else None in
  let parent := fst (PosixPath.split outdir) in
  _make_dir (Some (PosixPath.join parent ["logs"])) ;;
  let out := PosixPath.join parent ["logs"; jobname ++ ".out"] in
  let err := PosixPath.join parent ["logs"; jobname ++ ".err"] in
  let s0 :=
    mkJobScript (arg_sample_name a) (arg_job_suffix a) jobname outdir tempdir
      threads memory (arg_linkdir a) (arg_queue a) (arg_conda_env a) modules
      out err (arg_wait_for a) (arg_copy_input a) [] [] [] [] false
      (PosixPath.join outdir ["links_tracklines.txt"]) "" in
  fun w =>
    match (_set_filename ;; _write_header) (s0, w) with
    | (Ok _, (s, w')) => (Ok s, w')
    | (Raise e, (_, w')) => (Raise e, w')
    end.

(** [JobScript._copy_output_files] *)
Definition _copy_output_files : M jstate unit :=
  s <- self ;;
  if (0 <? Z.of_nat (length (output_files_to_copy s)))
     && negb (same_dir (tempdir s) (outdir s))
  then io (open_append (filename s) ;;
           write (filename s) (rsync_command (output_files_to_copy s) (outdir s)))
  else ret tt.

(** [JobScript._delete_temp_files]; [self.tempdir] is a string ever since
    [__init__], so the [is None] alternative of the source never holds. *)
Definition _delete_temp_files : M jstate unit :=
  s <- self ;;
  if 0 <? Z.of_nat (length (temp_files_to_delete s)) then
    (if same_dir (tempdir s) (outdir s)
     then set_self (with_temp_files_to_delete
                      (List.filter (not_in (output_files_to_copy s)) (temp_files_to_delete s)))
     else ret tt) ;;
    s' <- self ;;
    io (open_append (filename s') ;;
        write (filename s') (rm_command (temp_files_to_delete s')))
  else ret tt.

(** [JobScript._delete_tempdir] *)
Definition _delete_tempdir : M jstate unit :=
  s <- self ;;
  if Py.truthy (tempdir s) && negb (same_dir (tempdir s) (outdir s))
  then io (open_append (filename s) ;;
           write (filename s) (rmdir_command (tempdir s)))
  else ret tt.

(** [JobScript.softlink]: the body reads [job.filename]; the only
    [JobScript] in scope is [self], and the module has no global [job]. *)
Definition softlink (target link : string) : M jstate string :=
  let lines := "ln -s " ++ target ++ " " ++ link ++ Py.nl ++ Py.nl in
  s <- self ;;
  job <- lookup_name ({["self" := s]} : gmap string JobScript) "job" ;;
  io (open_append (filename job) ;; write (filename job) lines) ;;
  ret link.

Fixpoint _make_softlinks_loop (f : string) (l : list (string * string)) : M jstate unit :=
  match l with
  | [] => ret tt
  | p :: r =>
      x <- softlink (fst p) (snd p) ;;
      io (write f x) ;;
      _make_softlinks_loop f r
  end.

(** [JobScript._make_softlinks] *)
Definition _make_softlinks : M jstate unit :=
  s <- self ;;
  io (open_append (filename s)) ;;
  _make_softlinks_loop (filename s) (softlinks s).

(** [JobScript.add_softlink]: the locals are [self], [target] and
    [link_name]; the body also reads [sample_name] and [fn]. *)
Definition add_softlink (target : string) (link_name : option string) : M jstate string :=
  let locals : gmap string string :=
    match link_name with
    | Some l => <["link_name" := l]> {["target" := target]}
    | None => {["target" := target]}
    end in
  s <- self ;;
  link <-
    (if negb (Py.contains (sample_name s) (snd (PosixPath.split target))) then
       sn <- lookup_name locals "sample_name" ;;
       let name := sn ++ "_" ++ snd (PosixPath.split target) in
       d <- (match linkdir s with Some d => ret d | None => raise TypeError end) ;;
       ret (PosixPath.join d [name])
     else
       fn <- lookup_name locals "fn" ;;
       let name := snd (PosixPath.split fn) in
       d <- (match linkdir s with Some d => ret d | None => raise TypeError end) ;;
       ret (PosixPath.join d [name])) ;;
  set_self (fun j => with_softlinks (softlinks j ++ [(target, link)]) j) ;;
  ret link.

(** [JobScript.sge_submit_command] *)
Definition sge_submit_command (s : JobScript) : string :=
  if Py.truthy_list (wait_for s)
  then "qsub -hold_jid " ++ Py.join "," (default [] (wait_for s)) ++ " " ++ filename s
  else "qsub " ++ filename s.

(** [JobScript.temp_file_path] *)
Definition temp_file_path (s : JobScript) (fn : string) : string :=
  PosixPath.join (tempdir s) [snd (PosixPath.split fn)].

(** [JobScript.add_temp_file] *)
Definition add_temp_file (fn : string) (copy : bool) : M jstate string :=
  (if copy
   then set_self (fun j => with_output_files_to_copy (output_files_to_copy j ++ [fn]) j)
   else ret tt) ;;
  s <- self ;;
  ret (temp_file_path s fn).

(** [JobScript.add_input_file]; [copy] is [True], [False] or left at
    [None]. *)
Definition add_input_file (fn : string) (copy : option bool) : M jstate string :=
  let register :=
    set_self (fun j => with_input_files_to_copy (input_files_to_copy j ++ [fn]) j) in
  copy' <-
    (match copy with
     | Some true => register ;; ret true
     | Some false => ret false
     | None =>
         s <- self ;;
         if copy_input s then register ;; ret true else ret false
     end) ;;
  s <- self ;;
  if copy' : bool then ret (temp_file_path s fn) else ret (realpath fn).

(** [JobScript.copy_input_files] *)
Definition copy_input_files : M jstate unit :=
  s <- self ;;
  if 0 <? Z.of_nat (length (input_files_to_copy s)) then
    io (open_append (filename s) ;;
        write (filename s) (rsync_command (input_files_to_copy s) (tempdir s))) ;;
    set_self (fun j =>
      with_temp_files_to_delete
        (temp_files_to_delete j
         ++ map (fun x => PosixPath.join (tempdir j) [snd (PosixPath.split x)])
                (input_files_to_copy j)) j)
  else ret tt.

(** [JobScript.write_end] *)
Definition write_end : M jstate unit :=
  _copy_output_files ;;
  _delete_temp_files ;;
  _delete_tempdir ;;
  _make_softlinks ;;
  s <- self ;;
  if delete_sh s then io (os_remove (jobname s)) else ret tt.

End Env.

(** ** Sample objects *)

Definition empty_world : world := World ∅ ∅ [].

Definition sort_job : JobScript :=
  mkJobScript "S1" "sort" "S1_sort" "/out/alignment" "/scratch/S1_sort"
    1 4 (Some "/links") None None None
    "/out/logs/S1_sort.out" "/out/logs/S1_sort.err" (Some ["S1_align"]) false
    [] [] [] [] false "/out/alignment/links_tracklines.txt" "/out/sh/S1_sort.sh".

Definition count_job : JobScript :=
  mkJobScript "S1" "count" "S1_count" "/out/counts" "/scratch/S1_count"
    1 4 (Some "/links") None None None
    "/out/logs/S1_count.out" "/out/logs/S1_count.err" (Some ["S1_sort"; "S1_align"]) false
    [] [] [] [] false "/out/counts/links_tracklines.txt" "/out/sh/S1_count.sh".

Definition align_job : JobScript :=
  mkJobScript "S1" "align" "S1_align" "/out/alignment" "/scratch/S1_align"
    8 32 (Some "/links") None None None
    "/out/logs/S1_align.out" "/out/logs/S1_align.err" None false
    [] [] [] [] false "/out/alignment/links_tracklines.txt" "/out/sh/S1_align.sh".


(** ** Sample states for the scenarios *)

(** [os.path.realpath] on absolute, normalized paths of a file system
    without symbolic links. *)
Definition realpath_plain (p : string) : string := p.

(** [sort_job] with one temporary on its list and nothing to publish. *)
Definition scratch_only_job : JobScript :=
  with_temp_files_to_delete ["S1_unsorted.bam"] sort_job.

(** [sort_job] with one temporary and two outputs. *)
Definition publishing_job : JobScript :=
  with_output_files_to_copy ["S1_sorted.bam"; "S1_sorted.bam.bai"]
    (with_temp_files_to_delete ["S1_unsorted.bam"] sort_job).

(** A job that works in its output directory; one of its temporaries is
    also an output. *)
Definition in_place_job : JobScript :=
  mkJobScript "S1" "merge" "S1_merge" "/out/merge" "/out/merge"
    1 4 (Some "/links") None None None
    "/out/logs/S1_merge.out" "/out/logs/S1_merge.err" None false
    [] ["S1_merged.bam"] ["S1_merged.bam"; "S1_part1.bam"] [] false
    "/out/merge/links_tracklines.txt" "/out/sh/S1_merge.sh".

(** A job whose script name was taken: it writes to a scratch file. *)
Definition redirected_job : JobScript :=
  with_delete_sh true (with_filename "/tmp/tmpk3v9xq" sort_job).

Definition world_with_script : world :=
  World {["/out/sh/S1_sort.sh" := "#!/bin/bash"]} ∅ ["/tmp/tmpk3v9xq"].

(** ** The text that finalization appends *)

Section Blocks.

Variable realpath : string -> string.

(** The copy-outputs block: written only when there is something to copy
    and the temp directory is not the output directory. *)
Definition copy_block (j : JobScript) : string :=
  match output_files_to_copy j with
  | [] => ""
  | _ :: _ =>
      if same_dir realpath (tempdir j) (outdir j) then ""
      else rsync_command (output_files_to_copy j) (outdir j)
  end.

(** The paths named by the delete-temporaries command. *)
Definition deletion_set (j : JobScript) : list string :=
  if same_dir realpath (tempdir j) (outdir j)
  then List.filter (not_in (output_files_to_copy j)) (temp_files_to_delete j)
  else temp_files_to_delete j.

Definition delete_block (j : JobScript) : string :=
  match temp_files_to_delete j with
  | [] => ""
  | _ :: _ => rm_command (deletion_set j)
  end.

Definition rmdir_block (j : JobScript) : string :=
  if Py.truthy (tempdir j) && negb (same_dir realpath (tempdir j) (outdir j))
  then rmdir_command (tempdir j)
  else "".

(** The object once [_delete_temp_files] has run. *)
Definition after_delete (j : JobScript) : JobScript :=
  match temp_files_to_delete j with
  | [] => j
  | _ :: _ =>
      if same_dir realpath (tempdir j) (outdir j)
      then with_temp_files_to_delete (deletion_set j) j
      else j
  end.

(** The four writing steps of [write_end], before the script is looked at
    for removal. *)
Definition finalize_blocks : M jstate unit :=
  _copy_output_files realpath ;;
  _delete_temp_files realpath ;;
  _delete_tempdir realpath ;;
  _make_softlinks.

End Blocks.

(** The script of [j] in [w'] is its script in [w] followed by [t]. *)
Definition appended (f t : string) (w w' : world) : Prop :=
  contents f w' = contents f w ++ t.

(** No file other than [f] differs between [w] and [w']. *)
Definition untouched_except (f : string) (w w' : world) : Prop :=
  forall q, q ≠ f -> files w' !! q = files w !! q.

(** One step of finalization: it returns, leaves the object as [j'], adds
    [t] to the script [f] and touches no other file. *)
Definition emits (c : M jstate unit) (j j' : JobScript) (f t : string) (w : world) : Prop :=
  exists w1, c (j, w) = (Ok tt, (j', w1))
             /\ appended f t w w1 /\ untouched_except f w w1.

(** ** The text of the header *)

(** [assert self.queue in ['short', 'long']], for a queue that is given. *)
Definition queue_accepted (q : option string) : bool :=
  negb (Py.truthy_opt q) || existsb (String.eqb (default "" q)) ["short"; "long"].

Definition queue_line (q : option string) : string :=
  if Py.truthy_opt q then "#$ -q " ++ default "" q ++ Py.nl else "".

Fixpoint modules_text (ms : list string) : string :=
  match ms with
  | [] => ""
  | m :: r => ("module load " ++ m ++ Py.nl ++ Py.nl) ++ modules_text r
  end.

Section HeaderText.

Variable git_info : string.
Variable float_str : spec_float -> string.

(** The lines before the memory directive. *)
Definition header_head (j : JobScript) : string :=
  ("#!/bin/bash" ++ Py.nl ++ Py.nl)
  ++ queue_line (queue j)
  ++ ("#$ -N " ++ jobname j ++ Py.nl).

(** The memory-per-thread directive for the value [v]. *)
Definition h_vmem_line (v : spec_float) : string :=
  "#$ -l h_vmem=" ++ float_str v ++ Py.nl.

(** The lines after the memory directive. *)
Definition header_tail (j : JobScript) : string :=
  ("#$ -pe smp " ++ Py.str_int (threads j) ++ Py.nl)
  ++ ("#$ -S /bin/bash" ++ Py.nl)
  ++ ("#$ -o " ++ out j ++ Py.nl)
  ++ ("#$ -e " ++ err j ++ Py.nl ++ Py.nl)
  ++ ("# Git repository version:" ++ Py.nl ++ "# " ++ git_info ++ Py.nl ++ Py.nl)
  ++ (if Py.truthy_list (modules j) then modules_text (default [] (modules j)) else "")
  ++ (if Py.truthy_opt (conda_env j)
      then "source activate " ++ default "" (conda_env j) ++ Py.nl ++ Py.nl else "")
  ++ (if Py.truthy (tempdir j)
      then ("mkdir -p " ++ tempdir j ++ Py.nl) ++ ("cd " ++ tempdir j ++ Py.nl ++ Py.nl)
      else "").

End HeaderText.

(** The double nearest to 2. *)
Definition float_two : spec_float := S754_finite false 4503599627370496 (-51).

(** The text Python prints for a float of integer value below 10^16
    (the digits, then [.0]); any other value is left as a question mark. *)
Definition whole_float_str (f : spec_float) : string :=
  match f with
  | S754_zero s => if s then "-0.0" else "0.0"
  | S754_finite s m e =>
      let sign := if s then "-" else "" in
      if 0 <=? e then
        if Z.pos m * 2 ^ e <? 10 ^ 16
        then sign ++ Py.str_int (Z.pos m * 2 ^ e) ++ ".0" else "?"
      else if Z.pos m mod 2 ^ (- e) =? 0
        then sign ++ Py.str_int (Z.pos m / 2 ^ (- e)) ++ ".0" else "?"
  | S754_infinity s => if s then "-inf" else "inf"
  | S754_nan => "nan"
  end.

(** A job with 4 threads and 8 Gb. *)
Definition four_thread_job : JobScript :=
  mkJobScript "S1" "rsem" "S1_rsem" "/out/rsem" "/scratch/S1_rsem"
    4 8 (Some "/links") (Some "long") None (Some ["rsem"])
    "/out/logs/S1_rsem.out" "/out/logs/S1_rsem.err" (Some ["S1_align"]) false
    [] [] [] [] false "/out/rsem/links_tracklines.txt" "/out/sh/S1_rsem.sh".

(** ** What decides the outcome of construction *)

Definition is_int (v : pyval) : bool :=
  match v with PyInt _ => true | _ => false end.


(** The path of the job's script, [<parent of outdir>/sh/<jobname>.sh]. *)
Definition script_path (a : init_args) : string :=
  PosixPath.join (fst (PosixPath.split (arg_outdir a)))
    ["sh"; (arg_sample_name a ++ "_" ++ arg_job_suffix a) ++ ".sh"].

(** The directories [__init__] makes before it looks for the script. *)
Definition dirs_made (a : init_args) : M world unit :=
  _make_dir (Some (arg_outdir a)) ;;
  _make_dir (arg_linkdir a) ;;
  _make_dir (Some (PosixPath.join (fst (PosixPath.split (arg_outdir a))) ["logs"])) ;;
  _make_dir (Some (PosixPath.join (fst (PosixPath.split (arg_outdir a))) ["sh"])).

(** Either no script of that name exists yet, or [tempfile] finds a name
    for the scratch script. *)
Definition scratch_available (a : init_args) (w : world) : bool :=
  let w' := snd (dirs_made a w) in
  negb (os_path_exists (script_path a) w')
  || match first_fresh (tmp_names w') w' with Some _ => true | None => false end.


(** The outcome of [_write_header] on a job. *)
Definition header_outcome (j : JobScript) : result unit :=
  if negb (queue_accepted (queue j)) then Raise AssertionError
  else match PyFloat.of_int (threads j) with
       | Raise e => Raise e
       | Ok t => match PyFloat.int_div (memory j) t with
                 | Raise e => Raise e
                 | Ok _ => Ok tt
                 end
       end.

(** The outcome of [__init__], statement by statement. *)
Definition init_outcome (a : init_args) (w : world) : result unit :=
  match arg_threads a, arg_memory a with
  | PyInt t, PyInt m =>
      match arg_linkdir a with
      | None => Raise TypeError
      | Some _ =>
          if negb (scratch_available a w) then Raise OSError
          else if negb (queue_accepted (arg_queue a)) then Raise AssertionError
          else match PyFloat.of_int t with
               | Raise e => Raise e
               | Ok ft => match PyFloat.int_div m ft with
                          | Raise e => Raise e
                          | Ok _ => Ok tt
                          end
               end
      end
  | _, _ => Raise AssertionError
  end.

Definition same_outcome {A B} (r : result A) (o : result B) : Prop :=
  match r, o with
  | Ok _, Ok _ => True
  | Raise e, Raise e' => e = e'
  | _, _ => False
  end.

(** Sample arguments: 8 threads and 32 Gb; a negative thread count; no
    link directory. *)
Definition align_args : init_args :=
  InitArgs "S1" "alignment" "/out/alignment" (PyInt 8) (PyInt 32)
    (Some "/links") (Some "http://host/links") (Some "/scratch") (Some "long")
    None (Some "star,samtools") None false.


Definition no_linkdir_args : init_args :=
  InitArgs "S1" "alignment" "/out/alignment" (PyInt 8) (PyInt 32)
    None None (Some "/scratch") None None None None false.

(** ** The statements of the specification that the code does not meet,
    in the specification's words *)

Section AsStated.

Variable realpath : string -> string.

(** Scenario C: a job whose temp directory is distinct from its output
    directory and that has one declared temporary [t] ends its script with
    a copy-outputs block, then a delete block naming [t], then the removal
    of the temp directory. *)
Definition scenario_C_as_stated (j : JobScript) (t : string) (w : world) : Prop :=
  same_dir realpath (tempdir j) (outdir j) = false ->
  temp_files_to_delete j = [t] ->
  exists sources,
    appended (filename j)
      (rsync_command sources (outdir j) ++ rm_command [t] ++ rmdir_command (tempdir j))
      w (snd (snd (write_end realpath (j, w)))).

(** Round trip: the path returned by [add_input_file(fn, copy=True)]
    occurs verbatim in the copy command that [copy_input_files] then
    writes (a destination argument in particular occurs in it). *)
Definition round_trip_as_stated (j : JobScript) (fn : string) (w : world) : Prop :=
  match add_input_file realpath fn (Some true) (j, w) with
  | (Ok p, s1) =>
      exists t, appended (filename j) t (snd s1) (snd (snd (copy_input_files s1)))
                /\ Py.contains p t = true
  | (Raise _, _) => False
  end.


End AsStated.

(** A block of writes to the file [f]: it returns, adds [t] to [f] and
    touches no other file. *)
Definition wemits (c : M world unit) (f t : string) (w : world) : Prop :=
  exists w1, c w = (Ok tt, w1) /\ appended f t w w1 /\ untouched_except f w w1.

(** A block of writes to [f] that ends with the result [r]. *)
Definition wruns (c : M world unit) (f : string) (r : result unit) (w : world) : Prop :=
  exists w1, c w = (r, w1) /\ untouched_except f w w1.

(** ** Command builders *)

(** A method that returns [a]: it leaves the object as [j'], adds [t] to
    the script [f] and touches no other file. *)
Definition returns {A} (c : M jstate A) (j j' : JobScript) (a : A)
    (f t : string) (w : world) : Prop :=
  exists w1, c (j, w) = (Ok a, (j', w1))
             /\ appended f t w w1 /\ untouched_except f w w1.

(** [JobScript.make_md5sum]: the script is opened as [job.filename]. *)
Definition make_md5sum (fn : string) : M jstate string :=
  let lines := "md5sum " ++ fn ++ " > " ++ fn ++ ".md5" ++ Py.nl ++ Py.nl in
  s <- self ;;
  job <- lookup_name ({["self" := s]} : gmap string JobScript) "job" ;;
  io (open_append (filename job) ;; write (filename job) lines) ;;
  ret (fn ++ ".md5").

(** The text of the command that [picard_merge] builds ([merge_in], which
    the source also computes, is used nowhere); [picard_memory] is an
    int. *)
Definition picard_merge_lines (bams : list string) (out_bam picard_path : string)
    (picard_memory : Z) (picard_tempdir : string) (bg : bool) : string :=
  let fixed :=
    ["java -Xmx" ++ Py.str_int picard_memory ++ "g -jar";
     Py.tab ++ "-XX:ParallelGCThreads=1";
     Py.tab ++ "-Djava.io.tmpdir=" ++ picard_tempdir;
     Py.tab ++ "-jar " ++ picard_path ++ " MergeSamFiles";
     Py.tab ++ "ASSUME_SORTED=TRUE";
     Py.tab ++ "USE_THREADING=TRUE"] in
  let inputs := map (fun bam => Py.tab ++ "I=" ++ bam) bams in
  let lines := app fixed (app inputs [Py.tab ++ "O=" ++ out_bam]) in
  Py.join (" \" ++ Py.nl) lines
  ++ (if bg then " &" ++ Py.nl ++ Py.nl else Py.nl ++ Py.nl).

(** [JobScript.picard_merge] *)
Definition picard_merge (bams : list string) (out_bam picard_path : string)
    (picard_memory : Z) (picard_tempdir : string) (bg : bool) : M jstate string :=
  let lines := picard_merge_lines bams out_bam picard_path picard_memory
                 picard_tempdir bg in
  s <- self ;;
  io (open_append (filename s) ;; write (filename s) lines) ;;
  ret out_bam.

(** ** Construction, seen from outside *)

(** Whatever exists in [w] still exists in [w']. *)
Definition keeps_paths (w w' : world) : Prop :=
  forall p, os_path_exists p w = true -> os_path_exists p w' = true.

(** A step that makes directories: it returns or raises [OSError],
    touches no file and removes no directory. *)
Definition dir_step (r : result unit) (w w' : world) : Prop :=
  (r = Ok tt \/ r = Raise OSError)
  /\ files w' = files w /\ tmp_names w' = tmp_names w /\ dirs w ⊆ dirs w'.

(** A block of file-system calls that removes nothing. *)
Definition preserves {A} (c : M world A) : Prop :=
  forall w, keeps_paths w (snd (c w)).

Section InitObject.

Variable realpath : string -> string.

(** The object as [__init__] has filled it in when it calls
    [_set_filename], for int [threads] and [memory]. *)
Definition init_object (a : init_args) (t m : Z) (ld : option string) : JobScript :=
  let jobname := arg_sample_name a ++ "_" ++ arg_job_suffix a in
  let parent := fst (PosixPath.split (arg_outdir a)) in
  mkJobScript (arg_sample_name a) (arg_job_suffix a) jobname (arg_outdir a)
    (if Py.truthy_opt (arg_tempdir a)
     then realpath (PosixPath.join (default "" (arg_tempdir a)) [jobname])
     else arg_outdir a)
    t m ld (arg_queue a) (arg_conda_env a)
    (if Py.truthy_opt (arg_modules a)
     then Some (Py.split_on ","%char (default "" (arg_modules a)))
     else None)
    (PosixPath.join parent ["logs"; jobname ++ ".out"])
    (PosixPath.join parent ["logs"; jobname ++ ".err"])
    (arg_wait_for a) (arg_copy_input a) [] [] [] [] false
    (PosixPath.join (arg_outdir a) ["links_tracklines.txt"]) "".

End InitObject.

(** The world once [__init__] has made the output, link and log
    directories. *)
Definition world_before_script (a : init_args) (l : string) (w : world) : world :=
  snd (_make_dir (Some (PosixPath.join (fst (PosixPath.split (arg_outdir a))) ["logs"]))
         (snd (_make_dir (Some l) (snd (_make_dir (Some (arg_outdir a)) w))))).

(** More sample states: a job whose only temporary is also its output, a
    job with a softlink on its list, and arguments with a queue that is
    not accepted. *)
Definition all_published_job : JobScript :=
  with_temp_files_to_delete ["S1_merged.bam"] in_place_job.

Definition linked_job : JobScript :=
  with_softlinks [("/out/alignment/S1_sorted.bam", "/links/S1_sorted.bam")] publishing_job.


(** Arguments without a temp directory, and a world in which the script
    of the alignment job is already there. *)
Definition in_outdir_args : init_args :=
  InitArgs "S1" "alignment" "/out/alignment" (PyInt 8) (PyInt 32)
    (Some "/links") None None None None None None false.

Definition world_with_alignment_script : world :=
  World {["/out/sh/S1_alignment.sh" := "#!/bin/bash"]} ∅ ["/tmp/tmpk3v9xq"].

(** * Properties *)

Lemma append_nil_r (s : string) : s ++ "" = s.
Proof.
  induction s as [|a s IH]; [reflexivity|].
  change (String a (s ++ "") = String a s). now rewrite IH.
Qed.

Lemma append_assoc (a b c : string) : (a ++ b) ++ c = a ++ (b ++ c).
Proof.
  induction a as [|x a IH]; [reflexivity|].
  change (String x ((a ++ b) ++ c) = String x (a ++ (b ++ c))). now rewrite IH.
Qed.

Lemma contents_insert_eq p s w :
  contents p (set_files (<[p := s]>) w) = s.
Proof. unfold contents, set_files; simpl. now rewrite lookup_insert_eq. Qed.

Lemma contents_insert_ne p q s w :
  p ≠ q -> contents q (set_files (<[p := s]>) w) = contents q w.
Proof. intros H. unfold contents, set_files; simpl. now rewrite lookup_insert_ne. Qed.

Lemma appended_refl f w : appended f "" w w.
Proof. unfold appended. now rewrite append_nil_r. Qed.

Lemma appended_trans f t1 t2 w1 w2 w3 :
  appended f t1 w1 w2 -> appended f t2 w2 w3 -> appended f (t1 ++ t2) w1 w3.
Proof. unfold appended. intros H1 H2. now rewrite H2, H1, append_assoc. Qed.

Lemma untouched_refl f w : untouched_except f w w.
Proof. now intros q _. Qed.

Lemma untouched_trans f w1 w2 w3 :
  untouched_except f w1 w2 -> untouched_except f w2 w3 -> untouched_except f w1 w3.
Proof. intros H1 H2 q Hq. now rewrite H2, H1. Qed.

Lemma open_append_appended f w : appended f "" w (snd (open_append f w)).
Proof.
  unfold appended, open_append, modify. cbn [snd].
  rewrite contents_insert_eq. symmetry. apply append_nil_r.
Qed.

Lemma open_append_untouched f w : untouched_except f w (snd (open_append f w)).
Proof.
  intros q Hq. unfold open_append, modify, set_files; cbn.
  now rewrite lookup_insert_ne.
Qed.

Lemma open_append_exists f w : is_Some (files (snd (open_append f w)) !! f).
Proof. unfold open_append, modify, set_files; cbn. rewrite lookup_insert_eq. eauto. Qed.

Lemma write_appended f t w : appended f t w (snd (write f t w)).
Proof. unfold appended, write, modify. cbn [snd]. apply contents_insert_eq. Qed.

Lemma write_untouched f t w : untouched_except f w (snd (write f t w)).
Proof.
  intros q Hq. unfold write, modify, set_files; cbn.
  now rewrite lookup_insert_ne.
Qed.

Lemma open_write_appended f t w :
  (open_append f ;; write f t) w
  = (Ok tt, snd ((open_append f ;; write f t) w))
  /\ appended f t w (snd ((open_append f ;; write f t) w))
  /\ untouched_except f w (snd ((open_append f ;; write f t) w)).
Proof.
  split; [reflexivity|]. unfold bind; simpl. split.
  - replace t with ("" ++ t) at 1 by reflexivity.
    eapply appended_trans; [apply open_append_appended | apply write_appended].
  - eapply untouched_trans; [apply open_append_untouched | apply write_untouched].
Qed.

(** *** Running monadic code *)

Lemma bind_ok {S A B} (c : M S A) (k : A -> M S B) s a s' :
  c s = (Ok a, s') -> bind c k s = k a s'.
Proof. intros H. unfold bind. now rewrite H. Qed.

Lemma bind_raise {S A B} (c : M S A) (k : A -> M S B) s e s' :
  c s = (Raise e, s') -> bind c k s = (Raise e, s').
Proof. intros H. unfold bind. now rewrite H. Qed.

Lemma bind_self {B} (k : JobScript -> M jstate B) j w :
  bind self k (j, w) = k j (j, w).
Proof. reflexivity. Qed.

Lemma io_run {A} (c : M world A) j w :
  io c (j, w) = (fst (c w), (j, snd (c w))).
Proof. unfold io; cbn [fst snd]. now destruct (c w). Qed.

Lemma io_open_write j f t w :
  emits (io (open_append f ;; write f t)) j j f t w.
Proof.
  unfold emits. rewrite io_run. destruct (open_write_appended f t w) as (E & A & U).
  rewrite E. cbn [fst snd]. eexists; split; [reflexivity | split; [exact A | exact U]].
Qed.

Lemma emits_nothing j f w : emits (ret tt) j j f "" w.
Proof.
  exists w. split; [reflexivity | split; [apply appended_refl | apply untouched_refl]].
Qed.

(** *** Finalization, step by step *)

Section Finalize.

Variable realpath : string -> string.

Lemma copy_output_files_run j w :
  emits (_copy_output_files realpath) j j (filename j) (copy_block realpath j) w.
Proof.
  unfold emits, _copy_output_files, copy_block. rewrite bind_self.
  destruct (output_files_to_copy j) as [|o os] eqn:Ho.
  - apply emits_nothing.
  - change (0 <? Z.of_nat (length (o :: os))) with true. cbn [andb].
    destruct (same_dir realpath (tempdir j) (outdir j)); cbn [negb].
    + apply emits_nothing.
    + apply io_open_write.
Qed.

Lemma delete_temp_files_run j w :
  emits (_delete_temp_files realpath) j (after_delete realpath j)
        (filename j) (delete_block realpath j) w.
Proof.
  unfold emits, _delete_temp_files, delete_block, after_delete. rewrite bind_self.
  destruct (temp_files_to_delete j) as [|t ts] eqn:Ht.
  - apply emits_nothing.
  - change (0 <? Z.of_nat (length (t :: ts))) with true. cbv iota.
    unfold deletion_set. rewrite Ht.
    destruct (same_dir realpath (tempdir j) (outdir j)).
    + erewrite bind_ok by reflexivity. rewrite bind_self.
      cbn [with_temp_files_to_delete filename temp_files_to_delete].
      apply io_open_write.
    + erewrite bind_ok by reflexivity. rewrite bind_self. rewrite Ht.
      apply io_open_write.
Qed.

Lemma delete_tempdir_run j w :
  emits (_delete_tempdir realpath) j j (filename j) (rmdir_block realpath j) w.
Proof.
  unfold emits, _delete_tempdir, rmdir_block. rewrite bind_self.
  destruct (Py.truthy (tempdir j) && negb (same_dir realpath (tempdir j) (outdir j))).
  - apply io_open_write.
  - apply emits_nothing.
Qed.

(** Materializing links writes nothing: with no link registered there is
    nothing to write, and with one the first [softlink] call raises before
    it opens the script. *)
Lemma make_softlinks_run j w :
  exists w1,
    _make_softlinks (j, w)
    = (match softlinks j with [] => Ok tt | _ :: _ => Raise NameError end, (j, w1))
    /\ appended (filename j) "" w w1
    /\ is_Some (files w1 !! filename j)
    /\ untouched_except (filename j) w w1.
Proof.
  unfold _make_softlinks. rewrite bind_self.
  exists (snd (open_append (filename j) w)).
  split; [|split; [apply open_append_appended
                  | split; [apply open_append_exists | apply open_append_untouched]]].
  erewrite bind_ok by (rewrite io_run; reflexivity).
  destruct (softlinks j) as [|p ps]; reflexivity.
Qed.

End Finalize.

Section WriteEnd.

Variable realpath : string -> string.

Lemma after_delete_fields j :
  filename (after_delete realpath j) = filename j
  /\ jobname (after_delete realpath j) = jobname j
  /\ delete_sh (after_delete realpath j) = delete_sh j
  /\ softlinks (after_delete realpath j) = softlinks j
  /\ tempdir (after_delete realpath j) = tempdir j
  /\ outdir (after_delete realpath j) = outdir j.
Proof.
  unfold after_delete.
  destruct (temp_files_to_delete j); [tauto|].
  destruct (same_dir realpath (tempdir j) (outdir j)); cbn; tauto.
Qed.

Lemma rmdir_block_after_delete j :
  rmdir_block realpath (after_delete realpath j) = rmdir_block realpath j.
Proof.
  unfold rmdir_block.
  destruct (after_delete_fields j) as (_ & _ & _ & _ & -> & ->). reflexivity.
Qed.

Lemma finalize_blocks_run j w :
  exists w',
    finalize_blocks realpath (j, w)
    = (match softlinks j with [] => Ok tt | _ :: _ => Raise NameError end,
       (after_delete realpath j, w'))
    /\ appended (filename j)
         (copy_block realpath j ++ delete_block realpath j ++ rmdir_block realpath j) w w'
    /\ is_Some (files w' !! filename j)
    /\ untouched_except (filename j) w w'.
Proof.
  unfold finalize_blocks.
  destruct (copy_output_files_run realpath j w) as (w1 & E1 & A1 & U1).
  destruct (delete_temp_files_run realpath j w1) as (w2 & E2 & A2 & U2).
  destruct (delete_tempdir_run realpath (after_delete realpath j) w2) as (w3 & E3 & A3 & U3).
  destruct (make_softlinks_run (after_delete realpath j) w3) as (w4 & E4 & A4 & S4 & U4).
  destruct (after_delete_fields j) as (Ff & Fj & Fd & Fs & _ & _).
  rewrite Ff in A3, A4, S4, U3, U4. rewrite Fs in E4. rewrite rmdir_block_after_delete in A3.
  erewrite bind_ok by exact E1.
  erewrite bind_ok by exact E2.
  erewrite bind_ok by exact E3.
  exists w4. split; [exact E4 | split; [|split; [exact S4|]]].
  - eapply appended_trans; [exact A1|].
    eapply appended_trans; [exact A2|].
    rewrite <- (append_nil_r (rmdir_block realpath j)).
    eapply appended_trans; [exact A3 | exact A4].
  - eapply untouched_trans; [exact U1|].
    eapply untouched_trans; [exact U2|].
    eapply untouched_trans; [exact U3 | exact U4].
Qed.

Lemma write_end_split s :
  write_end realpath s
  = (finalize_blocks realpath ;;
     s' <- self ;;
     if delete_sh s' then io (os_remove (jobname s')) else ret tt) s.
Proof.
  unfold write_end, finalize_blocks, bind.
  destruct (_copy_output_files realpath s) as [[u|e] s1]; [|reflexivity].
  destruct (_delete_temp_files realpath s1) as [[u2|e2] s2]; [|reflexivity].
  destruct (_delete_tempdir realpath s2) as [[u3|e3] s3]; [|reflexivity].
  destruct (_make_softlinks s3) as [[u4|e4] s4]; reflexivity.
Qed.

(** Every file other than the script is as it was after [write_end],
    unless it is the file named by the job name of a redirected job, which
    is then gone. *)
Lemma write_end_frame j w q :
  q ≠ filename j ->
  let w' := snd (snd (write_end realpath (j, w))) in
  files w' !! q = files w !! q
  \/ (q = jobname j /\ delete_sh j = true /\ files w' !! q = None).
Proof.
  intros Hq. cbn zeta. rewrite write_end_split.
  destruct (finalize_blocks_run j w) as (w4 & E & _ & _ & U).
  destruct (after_delete_fields j) as (Ff & Fj & Fd & _).
  destruct (softlinks j) as [|p ps].
  - erewrite bind_ok by exact E. rewrite bind_self, Fd, Fj.
    destruct (delete_sh j) eqn:Hd; [|left; now apply U].
    rewrite io_run. unfold os_remove.
    destruct (files w4 !! jobname j) eqn:Hf; cbn [fst snd]; [|left; now apply U].
    unfold set_files; cbn [files].
    destruct (decide (q = jobname j)) as [->|Hne].
    + right. rewrite lookup_delete_eq. repeat split.
    + left. rewrite lookup_delete_ne by congruence. now apply U.
  - erewrite bind_raise by exact E. left. now apply U.
Qed.

End WriteEnd.

(** *** Finalization order *)

Section FinalizeOrder.

Variable realpath : string -> string.

(** C2 (as amended): [write_end] leaves the script as it was, followed
    by the copy-outputs block, the delete-temporaries block and the removal
    of the temp directory, in this order and each at most once; a block is
    absent when its guard fails (nothing to copy, no temporary listed, temp
    directory equal to the output directory). It writes to no other file:
    every other file is left as it was, except that finalizing a redirected
    job may remove the file named by its job name. A job whose temp
    directory is distinct from its output directory, with at least one
    declared output and one listed temporary [t], gets the copy command,
    then the delete command naming [t], then [rm -r] of the temp
    directory. *)
Theorem write_end_blocks_in_order (j : JobScript) (w : world) :
  (delete_sh j = true -> jobname j ≠ filename j) ->
  let w' := snd (snd (write_end realpath (j, w))) in
  appended (filename j)
    (copy_block realpath j ++ delete_block realpath j ++ rmdir_block realpath j) w w'
  /\ (forall q, q ≠ filename j ->
        files w' !! q = files w !! q
        \/ (q = jobname j /\ delete_sh j = true /\ files w' !! q = None))
  /\ (delete_sh j = false -> untouched_except (filename j) w w')
  /\ (forall t,
        same_dir realpath (tempdir j) (outdir j) = false ->
        Py.truthy (tempdir j) = true ->
        output_files_to_copy j <> [] ->
        temp_files_to_delete j = [t] ->
        appended (filename j)
          (rsync_command (output_files_to_copy j) (outdir j)
           ++ rm_command [t] ++ rmdir_command (tempdir j)) w w').
Proof.
  intros Hne w'.
  assert (A : appended (filename j)
                (copy_block realpath j ++ delete_block realpath j ++ rmdir_block realpath j)
                w w').
  { subst w'. rewrite write_end_split.
    destruct (finalize_blocks_run realpath j w) as (w4 & E & A & S & U).
    destruct (after_delete_fields realpath j) as (Ff & Fj & Fd & _).
    destruct (softlinks j) as [|p ps].
    - erewrite bind_ok by exact E. rewrite bind_self, Fd, Fj.
      destruct (delete_sh j) eqn:Hd; [|exact A].
      specialize (Hne eq_refl). rewrite io_run. unfold os_remove.
      destruct (files w4 !! jobname j); cbn [fst snd]; [|exact A].
      unfold appended in *. rewrite <- A. unfold contents, set_files; cbn.
      now rewrite lookup_delete_ne.
    - erewrite bind_raise by exact E. exact A. }
  split; [exact A | split; [|split]].
  - intros q Hq. exact (write_end_frame realpath j w q Hq).
  - intros Hd q Hq.
    destruct (write_end_frame realpath j w q Hq) as [H|(_ & H & _)];
      [exact H | congruence].
  - intros t Hd Ht Ho Htmp.
    unfold copy_block, delete_block, rmdir_block, deletion_set in A.
    rewrite Hd, Ht, Htmp in A.
    destruct (output_files_to_copy j) as [|o os]; [congruence|]. exact A.
Qed.

End FinalizeOrder.

Lemma write_end_blocks_in_order_witness :
  (delete_sh publishing_job = true -> jobname publishing_job ≠ filename publishing_job)
  /\ appended "/out/sh/S1_sort.sh"
       (rsync_command ["S1_sorted.bam"; "S1_sorted.bam.bai"] "/out/alignment"
        ++ rm_command ["S1_unsorted.bam"] ++ rmdir_command "/scratch/S1_sort")
       empty_world
       (snd (snd (write_end realpath_plain (publishing_job, empty_world))))
  /\ untouched_except "/out/sh/S1_sort.sh" empty_world
       (snd (snd (write_end realpath_plain (publishing_job, empty_world)))).
Proof.
  split; [discriminate|].
  destruct (write_end_blocks_in_order realpath_plain publishing_job empty_world
              ltac:(discriminate)) as (_ & _ & U & B).
  split; [|exact (U eq_refl)].
  apply (B "S1_unsorted.bam");
    [reflexivity | reflexivity | discriminate | reflexivity].
Defined.

(** C2 (as stated) fails: with a temporary on the list and no declared
    output, [write_end] writes the delete command and the removal of the
    temp directory, and no copy-outputs block before them. *)
Lemma scenario_C_without_outputs :
  ~ scenario_C_as_stated realpath_plain scratch_only_job "S1_unsorted.bam" empty_world.
Proof.
  intros H. destruct (H eq_refl eq_refl) as [sources A].
  unfold appended in A. vm_compute in A. discriminate A.
Qed.

(** *** Temporaries and published outputs *)

Lemma not_in_true l x : not_in l x = true <-> ~ In x l.
Proof.
  unfold not_in. rewrite negb_true_iff. split.
  - intros H Hin. assert (E : existsb (String.eqb x) l = true).
    { apply existsb_exists. exists x. split; [exact Hin | apply String.eqb_refl]. }
    congruence.
  - intros H. destruct (existsb (String.eqb x) l) eqn:E; [|reflexivity].
    apply existsb_exists in E. destruct E as (y & Hy & Exy).
    apply String.eqb_eq in Exy. subst y. contradiction.
Qed.

Section DeleteTemps.

Variable realpath : string -> string.

(** C3: when the temp directory is the output directory, the delete
    command that [_delete_temp_files] writes names exactly the listed
    temporaries that are not published outputs: no path that is on both
    lists is deleted. *)
Theorem delete_temp_files_spares_outputs (j : JobScript) (w : world) :
  realpath (tempdir j) = realpath (outdir j) ->
  emits (_delete_temp_files realpath) j (after_delete realpath j) (filename j)
    (match temp_files_to_delete j with
     | [] => ""
     | _ :: _ => rm_command (deletion_set realpath j)
     end) w
  /\ (forall p, In p (deletion_set realpath j) <->
                In p (temp_files_to_delete j) /\ ~ In p (output_files_to_copy j))
  /\ (forall p, In p (temp_files_to_delete j) -> In p (output_files_to_copy j) ->
                ~ In p (deletion_set realpath j))
  /\ temp_files_to_delete (after_delete realpath j) = deletion_set realpath j.
Proof.
  intros Hsame.
  assert (Hd : same_dir realpath (tempdir j) (outdir j) = true).
  { unfold same_dir. rewrite Hsame. apply String.eqb_refl. }
  assert (Hiff : forall p, In p (deletion_set realpath j) <->
                   In p (temp_files_to_delete j) /\ ~ In p (output_files_to_copy j)).
  { intros p. unfold deletion_set. rewrite Hd, filter_In, not_in_true. reflexivity. }
  split; [apply delete_temp_files_run | split; [exact Hiff | split]].
  - intros p _ Hout Hdel. apply Hiff in Hdel. tauto.
  - unfold after_delete, deletion_set. rewrite Hd.
    destruct (temp_files_to_delete j) eqn:Ht; [now rewrite Ht | reflexivity].
Qed.

(** C4 (what the code does): [add_temp_file] returns the temp path and
    leaves the list of temporaries as it was; only [copy=True] has an
    effect, on the list of outputs. A path declared this way on a job with
    no other temporary is named by no delete command at finalization. *)
Theorem add_temp_file_registers_nothing (fn : string) (copy : bool) (j : JobScript) (w : world) :
  exists j',
    add_temp_file fn copy (j, w) = (Ok (temp_file_path j fn), (j', w))
    /\ temp_files_to_delete j' = temp_files_to_delete j
    /\ output_files_to_copy j'
       = (if copy then output_files_to_copy j ++ [fn] else output_files_to_copy j)%list
    /\ (temp_files_to_delete j = [] -> delete_block realpath j' = "").
Proof.
  unfold add_temp_file. destruct copy.
  - eexists. split; [reflexivity|]. cbn. split; [reflexivity | split; [reflexivity|]].
    intros H. unfold delete_block. cbn. now rewrite H.
  - exists j. split; [reflexivity | split; [reflexivity | split; [reflexivity|]]].
    intros H. unfold delete_block. now rewrite H.
Qed.

End DeleteTemps.

Lemma delete_temp_files_spares_outputs_witness :
  realpath_plain (tempdir in_place_job) = realpath_plain (outdir in_place_job)
  /\ deletion_set realpath_plain in_place_job = ["S1_part1.bam"]
  /\ ~ In "S1_merged.bam" (deletion_set realpath_plain in_place_job).
Proof.
  split; [reflexivity | split; [reflexivity|]].
  apply (proj1 (proj2 (proj2
           (delete_temp_files_spares_outputs realpath_plain in_place_job empty_world
              eq_refl)))); simpl; tauto.
Defined.

Lemma add_temp_file_registers_nothing_witness :
  temp_files_to_delete sort_job = []
  /\ exists j',
       add_temp_file "S1_sorted.bam" false (sort_job, empty_world)
       = (Ok "/scratch/S1_sort/S1_sorted.bam", (j', empty_world))
       /\ delete_block realpath_plain j' = "".
Proof.
  split; [reflexivity|].
  destruct (add_temp_file_registers_nothing realpath_plain "S1_sorted.bam" false
              sort_job empty_world) as (j' & E & _ & _ & D).
  exists j'. split; [exact E | exact (D eq_refl)].
Defined.

(** *** Softlinks *)

(** C9 (what the code does): [add_softlink] raises [NameError] on every
    call, with or without a link name: when the base name of the target
    lacks the sample name the body reads the unbound name [sample_name],
    otherwise the unbound name [fn]. No pair is recorded and no link path
    is returned. *)
Theorem add_softlink_raises (target : string) (link_name : option string)
    (j : JobScript) (w : world) :
  add_softlink target link_name (j, w) = (Raise NameError, (j, w)).
Proof.
  unfold add_softlink. rewrite bind_self.
  destruct (negb (Py.contains (sample_name j) (snd (PosixPath.split target))));
    destruct link_name; reflexivity.
Qed.

(** *** The scratch script *)

Section Scratch.

Variable realpath : string -> string.

(** C8 (what the code does): on a job that was redirected to a scratch
    script, [write_end] leaves the scratch script in place: it asks the
    file system to remove the path [jobname], not [filename]. With no link
    registered the call ends in [OSError] when no file of that name exists,
    and otherwise removes that other file. *)
Theorem write_end_keeps_scratch_script (j : JobScript) (w : world) :
  delete_sh j = true ->
  jobname j ≠ filename j ->
  let r := fst (write_end realpath (j, w)) in
  let w' := snd (snd (write_end realpath (j, w))) in
  is_Some (files w' !! filename j)
  /\ (softlinks j = [] -> files w !! jobname j = None -> r = Raise OSError)
  /\ (softlinks j = [] -> is_Some (files w !! jobname j) ->
      r = Ok tt /\ files w' !! jobname j = None).
Proof.
  intros Hd Hne r w'. subst r w'. rewrite write_end_split.
  destruct (finalize_blocks_run realpath j w) as (w4 & E & A & S & U).
  destruct (after_delete_fields realpath j) as (Ff & Fj & Fd & _).
  assert (Hj : files w4 !! jobname j = files w !! jobname j) by (apply U; exact Hne).
  destruct (softlinks j) as [|p ps].
  - erewrite bind_ok by exact E. rewrite bind_self, Fd, Fj, Hd, io_run.
    unfold os_remove. rewrite Hj.
    destruct (files w !! jobname j) eqn:Hw; cbn [fst snd].
    + split; [|split; [discriminate|]].
      * unfold set_files; cbn. now rewrite lookup_delete_ne.
      * intros _ _. split; [reflexivity|]. unfold set_files; cbn. apply lookup_delete_eq.
    + split; [exact S | split; [reflexivity|]].
      intros _ [x Hx]. discriminate Hx.
  - erewrite bind_raise by exact E. cbn [fst snd].
    split; [exact S | split; discriminate].
Qed.

End Scratch.

Lemma write_end_keeps_scratch_script_witness :
  delete_sh redirected_job = true
  /\ jobname redirected_job ≠ filename redirected_job
  /\ is_Some (files (snd (snd (write_end realpath_plain (redirected_job, world_with_script))))
              !! "/tmp/tmpk3v9xq")
  /\ fst (write_end realpath_plain (redirected_job, world_with_script)) = Raise OSError.
Proof.
  split; [reflexivity | split; [discriminate|]].
  destruct (write_end_keeps_scratch_script realpath_plain redirected_job world_with_script
              eq_refl ltac:(discriminate)) as (S & R & _).
  split; [exact S | apply R; reflexivity].
Defined.

(** *** The header *)

Lemma wemits_ret f w : wemits (ret tt) f "" w.
Proof.
  exists w. split; [reflexivity | split; [apply appended_refl | apply untouched_refl]].
Qed.

Lemma wemits_write f t w : wemits (write f t) f t w.
Proof.
  exists (snd (write f t w)).
  split; [reflexivity | split; [apply write_appended | apply write_untouched]].
Qed.

Lemma wemits_open f w : wemits (open_append f) f "" w.
Proof.
  exists (snd (open_append f w)).
  split; [reflexivity | split; [apply open_append_appended | apply open_append_untouched]].
Qed.

Lemma wemits_bind c1 c2 f t1 t2 w :
  wemits c1 f t1 w ->
  (forall w1, wemits c2 f t2 w1) ->
  wemits (c1 ;; c2) f (t1 ++ t2) w.
Proof.
  intros (w1 & E1 & A1 & U1) H2. destruct (H2 w1) as (w2 & E2 & A2 & U2).
  exists w2. split; [|split].
  - erewrite bind_ok by exact E1. exact E2.
  - eapply appended_trans; eassumption.
  - eapply untouched_trans; eassumption.
Qed.

Lemma wemits_modules f ms w : wemits (write_modules f ms) f (modules_text ms) w.
Proof.
  revert w. induction ms as [|m r IH]; intros w; [apply wemits_ret|].
  cbn [write_modules modules_text].
  apply wemits_bind; [apply wemits_write | exact IH].
Qed.

Lemma wemits_of_result {A} (r : result A) (a : A) (k : A -> M world unit) f t w :
  r = Ok a -> wemits (k a) f t w -> wemits (x <- of_result r ;; k x) f t w.
Proof.
  intros -> (w1 & E & A1 & U). exists w1.
  split; [|split; assumption]. erewrite bind_ok by reflexivity. exact E.
Qed.

Lemma queue_branch_accepted (q : option string) (f : string) (w : world) :
  queue_accepted q = true ->
  wemits (if Py.truthy_opt q then
            assert (existsb (String.eqb (default "" q)) ["short"; "long"]) ;;
            write f ("#$ -q " ++ default "" q ++ Py.nl)
          else ret tt) f (queue_line q) w.
Proof.
  intros Hq. unfold queue_line. unfold queue_accepted in Hq.
  destruct (Py.truthy_opt q); [|apply wemits_ret].
  cbn [negb orb] in Hq. rewrite Hq. unfold assert.
  change ("#$ -q " ++ default "" q ++ Py.nl)
    with ("" ++ ("#$ -q " ++ default "" q ++ Py.nl)) at 2.
  apply wemits_bind; [apply wemits_ret | intros; apply wemits_write].
Qed.

Lemma queue_branch_rejected (q : option string) (f : string) (w : world) :
  queue_accepted q = false ->
  (if Py.truthy_opt q then
     assert (existsb (String.eqb (default "" q)) ["short"; "long"]) ;;
     write f ("#$ -q " ++ default "" q ++ Py.nl)
   else ret tt) w = (Raise AssertionError, w).
Proof.
  intros Hq. unfold queue_accepted in Hq.
  destruct (Py.truthy_opt q); [|discriminate Hq].
  cbn [negb orb] in Hq. rewrite Hq. reflexivity.
Qed.

Lemma wruns_raise e f w : wruns (raise e) f (Raise e) w.
Proof. exists w. split; [reflexivity | apply untouched_refl]. Qed.

Lemma wruns_bind c1 c2 f t r w :
  wemits c1 f t w -> (forall w1, wruns c2 f r w1) -> wruns (c1 ;; c2) f r w.
Proof.
  intros (w1 & E1 & _ & U1) H2. destruct (H2 w1) as (w2 & E2 & U2).
  exists w2. split; [|eapply untouched_trans; eassumption].
  erewrite bind_ok by exact E1. exact E2.
Qed.

Lemma wruns_bind_raise c1 c2 f e w :
  wruns c1 f (Raise e) w -> wruns (c1 ;; c2) f (Raise e) w.
Proof.
  intros (w1 & E1 & U1). exists w1. split; [|exact U1].
  erewrite bind_raise by exact E1. reflexivity.
Qed.

Section Header.

Variable git_info : string.
Variable float_str : spec_float -> string.

Lemma write_header_run (j : JobScript) (w : world) (t q : spec_float) :
  queue_accepted (queue j) = true ->
  PyFloat.of_int (threads j) = Ok t ->
  PyFloat.int_div (memory j) t = Ok q ->
  emits (_write_header git_info float_str) j j (filename j)
    (header_head j ++ h_vmem_line float_str q ++ header_tail git_info j) w.
Proof.
  intros Hq Ht Hdiv.
  assert (W : forall w0, wemits
    (open_append (filename j) ;;
     write (filename j) ("#!/bin/bash" ++ Py.nl ++ Py.nl) ;;
     (if Py.truthy_opt (queue j) then
        assert (existsb (String.eqb (default "" (queue j))) ["short"; "long"]) ;;
        write (filename j) ("#$ -q " ++ default "" (queue j) ++ Py.nl)
      else ret tt) ;;
     write (filename j) ("#$ -N " ++ jobname j ++ Py.nl) ;;
     t <- of_result (PyFloat.of_int (threads j)) ;;
     v <- of_result (PyFloat.int_div (memory j) t) ;;
     write (filename j) ("#$ -l h_vmem=" ++ float_str v ++ Py.nl) ;;
     write (filename j) ("#$ -pe smp " ++ Py.str_int (threads j) ++ Py.nl) ;;
     write (filename j) ("#$ -S /bin/bash" ++ Py.nl) ;;
     write (filename j) ("#$ -o " ++ out j ++ Py.nl) ;;
     write (filename j) ("#$ -e " ++ err j ++ Py.nl ++ Py.nl) ;;
     write (filename j)
       ("# Git repository version:" ++ Py.nl ++ "# " ++ git_info ++ Py.nl ++ Py.nl) ;;
     (if Py.truthy_list (modules j)
      then write_modules (filename j) (default [] (modules j)) else ret tt) ;;
     (if Py.truthy_opt (conda_env j) then
        write (filename j) ("source activate " ++ default "" (conda_env j) ++ Py.nl ++ Py.nl)
      else ret tt) ;;
     (if Py.truthy (tempdir j) then
        write (filename j) ("mkdir -p " ++ tempdir j ++ Py.nl) ;;
        write (filename j) ("cd " ++ tempdir j ++ Py.nl ++ Py.nl)
      else ret tt))
    (filename j)
    ("" ++ ("#!/bin/bash" ++ Py.nl ++ Py.nl) ++ queue_line (queue j)
     ++ ("#$ -N " ++ jobname j ++ Py.nl) ++ h_vmem_line float_str q
     ++ header_tail git_info j) w0).
  { intros w0.
    apply wemits_bind; [apply wemits_open | intros w1].
    apply wemits_bind; [apply wemits_write | intros w2].
    apply wemits_bind; [apply queue_branch_accepted; exact Hq | intros w3].
    apply wemits_bind; [apply wemits_write | intros w4].
    eapply wemits_of_result; [exact Ht|].
    eapply wemits_of_result; [exact Hdiv|].
    unfold h_vmem_line, header_tail.
    apply wemits_bind; [apply wemits_write | intros w5].
    apply wemits_bind; [apply wemits_write | intros w6].
    apply wemits_bind; [apply wemits_write | intros w7].
    apply wemits_bind; [apply wemits_write | intros w8].
    apply wemits_bind; [apply wemits_write | intros w9].
    apply wemits_bind; [apply wemits_write | intros w10].
    apply wemits_bind.
    { destruct (Py.truthy_list (modules j)); [apply wemits_modules | apply wemits_ret]. }
    intros w11.
    apply wemits_bind.
    { destruct (Py.truthy_opt (conda_env j)); [apply wemits_write | apply wemits_ret]. }
    intros w12.
    destruct (Py.truthy (tempdir j)); [|apply wemits_ret].
    apply wemits_bind; [apply wemits_write | intros; apply wemits_write]. }
  unfold emits, _write_header. rewrite bind_self, io_run.
  destruct (W w) as (w1 & E & A & U). rewrite E. cbn [fst snd].
  exists w1. split; [reflexivity | split; [|exact U]].
  unfold header_head. rewrite !append_assoc. rewrite !append_assoc in A. exact A.
Qed.

(** C5: the header that [_write_header] writes carries, right after
    the job-name directive, one memory-per-thread directive whose value is
    the floating-point quotient of [memory] by [threads]; for 4 threads
    and 8 Gb it is 2. *)
Theorem write_header_memory_per_thread (j : JobScript) (w : world) (t m : spec_float) :
  queue_accepted (queue j) = true ->
  PyFloat.of_int (threads j) = Ok t ->
  PyFloat.of_int (memory j) = Ok m ->
  PyFloat.is_zero t = false ->
  emits (_write_header git_info float_str) j j (filename j)
    (header_head j
     ++ h_vmem_line float_str (SFdiv PyFloat.prec PyFloat.emax m t)
     ++ header_tail git_info j) w
  /\ (threads j = 4 -> memory j = 8 ->
      SFdiv PyFloat.prec PyFloat.emax m t = float_two).
Proof.
  intros Hq Ht Hm Hz. split.
  - apply (write_header_run j w t); [exact Hq | exact Ht |].
    unfold PyFloat.int_div. now rewrite Hm, Hz.
  - intros H4 H8. rewrite H4 in Ht. rewrite H8 in Hm.
    vm_compute in Ht. vm_compute in Hm.
    injection Ht as <-. injection Hm as <-. reflexivity.
Qed.

End Header.

Lemma write_header_memory_per_thread_witness :
  queue_accepted (queue four_thread_job) = true
  /\ PyFloat.of_int (threads four_thread_job)
     = Ok (S754_finite false 4503599627370496 (-50))
  /\ PyFloat.of_int (memory four_thread_job)
     = Ok (S754_finite false 4503599627370496 (-49))
  /\ PyFloat.is_zero (S754_finite false 4503599627370496 (-50)) = false
  /\ emits (_write_header "v1.0" whole_float_str) four_thread_job four_thread_job
       "/out/sh/S1_rsem.sh"
       (header_head four_thread_job
        ++ ("#$ -l h_vmem=2.0" ++ Py.nl)
        ++ header_tail "v1.0" four_thread_job) empty_world.
Proof.
  split; [reflexivity | split; [reflexivity | split; [reflexivity | split; [reflexivity|]]]].
  exact (proj1 (write_header_memory_per_thread "v1.0" whole_float_str four_thread_job
                  empty_world _ _ eq_refl eq_refl eq_refl eq_refl)).
Defined.

(** *** Input staging *)

Section Staging.

Variable realpath : string -> string.

Lemma copy_input_files_run (j : JobScript) (w : world) :
  input_files_to_copy j <> [] ->
  emits copy_input_files j
    (with_temp_files_to_delete
       (temp_files_to_delete j ++ map (temp_file_path j) (input_files_to_copy j)) j)
    (filename j) (rsync_command (input_files_to_copy j) (tempdir j)) w.
Proof.
  intros Hne. unfold emits, copy_input_files. rewrite bind_self.
  destruct (input_files_to_copy j) as [|x xs] eqn:Hi; [congruence|].
  change (0 <? Z.of_nat (length (x :: xs))) with true. cbv iota.
  destruct (io_open_write j (filename j) (rsync_command (x :: xs) (tempdir j)) w)
    as (w1 & E & A & U).
  erewrite bind_ok by exact E.
  exists w1. split; [|split; assumption].
  unfold set_self, modify. cbn [fst snd]. now rewrite Hi.
Qed.

(** C6 (as amended): [add_input_file(fn, copy=True)] returns the path
    of [fn] inside the temp directory (temp directory joined with the base
    name of [fn]) and registers [fn]; [copy_input_files] then writes one
    copy command whose source arguments are the registered paths, [fn]
    among them, and whose only destination argument is the temp directory,
    and puts the returned path on the list of temporaries. *)
Theorem staged_input_round_trip (fn : string) (j : JobScript) (w : world) :
  exists j1 j2,
    add_input_file realpath fn (Some true) (j, w)
    = (Ok (PosixPath.join (tempdir j) [snd (PosixPath.split fn)]), (j1, w))
    /\ In fn (input_files_to_copy j1)
    /\ emits copy_input_files j1 j2 (filename j)
         (rsync_command (input_files_to_copy j1) (tempdir j)) w
    /\ In (PosixPath.join (tempdir j) [snd (PosixPath.split fn)])
          (temp_files_to_delete j2).
Proof.
  set (j1 := with_input_files_to_copy (input_files_to_copy j ++ [fn]) j).
  exists j1. eexists. split; [reflexivity|].
  assert (Hin : In fn (input_files_to_copy j1)).
  { subst j1. cbn. apply in_or_app. right. now left. }
  split; [exact Hin | split].
  - apply (copy_input_files_run j1 w).
    intros H. rewrite H in Hin. exact Hin.
  - cbn [temp_files_to_delete with_temp_files_to_delete].
    apply in_or_app. right.
    change (PosixPath.join (tempdir j) [snd (PosixPath.split fn)])
      with (temp_file_path j1 fn).
    apply in_map. exact Hin.
Qed.

End Staging.

(** C6 (as stated) fails: the path returned for a staged input does not
    occur in the copy command, whose destination is the temp directory
    itself. *)
Lemma staged_path_not_in_copy_command :
  ~ round_trip_as_stated realpath_plain align_job "/data/S1_R1.fastq.gz" empty_world.
Proof.
  unfold round_trip_as_stated.
  change (add_input_file realpath_plain "/data/S1_R1.fastq.gz" (Some true)
            (align_job, empty_world))
    with (Ok "/scratch/S1_align/S1_R1.fastq.gz",
          (with_input_files_to_copy ["/data/S1_R1.fastq.gz"] align_job, empty_world)).
  intros (t & A & C). unfold appended in A. vm_compute in A. subst t.
  vm_compute in C. discriminate C.
Qed.

(** *** Construction *)

Lemma os_mkdir_step name w : dir_step (fst (os_mkdir name w)) w (snd (os_mkdir name w)).
Proof.
  unfold os_mkdir, dir_step. cbn zeta.
  destruct (negb (Py.truthy (Py.rstrip_slash name))
            || is_dot (snd (PosixPath.split (Py.rstrip_slash name)))
            || os_path_exists (Py.rstrip_slash name) w
            || negb (is_directory (fst (PosixPath.split (Py.rstrip_slash name))) w));
    cbn [fst snd files dirs tmp_names].
  - repeat split; [now right | set_solver].
  - repeat split; [now left | set_solver].
Qed.

Lemma makedirs_go_S fuel name w :
  makedirs_go (S fuel) name w
  = if Py.truthy (fst (components name)) && Py.truthy (snd (components name))
       && negb (Py.all_slashes (fst (components name))
                || os_path_exists (fst (components name)) w)
    then match makedirs_go fuel (fst (components name)) w with
         | (Ok _, w1) =>
             if String.eqb (snd (components name)) "." then (Ok tt, w1)
             else os_mkdir name w1
         | (Raise e, w1) => (Raise e, w1)
         end
    else os_mkdir name w.
Proof.
  cbn [makedirs_go]. destruct (components name) as [head tail]. cbn [fst snd].
  unfold bind.
  destruct (Py.truthy head && Py.truthy tail
            && negb (Py.all_slashes head || os_path_exists head w)); [|reflexivity].
  destruct (makedirs_go fuel head w) as [[[]|e] w1]; [|reflexivity].
  destruct (String.eqb tail "."); reflexivity.
Qed.

Lemma makedirs_go_step fuel name w :
  dir_step (fst (makedirs_go fuel name w)) w (snd (makedirs_go fuel name w)).
Proof.
  revert name w. induction fuel as [|fuel IH]; intros name w.
  - cbn. repeat split; [now right | set_solver].
  - rewrite makedirs_go_S.
    destruct (Py.truthy (fst (components name)) && Py.truthy (snd (components name))
              && negb (Py.all_slashes (fst (components name))
                       || os_path_exists (fst (components name)) w));
      [|apply os_mkdir_step].
    specialize (IH (fst (components name)) w).
    destruct (makedirs_go fuel (fst (components name)) w) as [[[]|e] w1];
      cbn [fst snd] in IH.
    + destruct IH as (_ & F1 & T1 & D1).
      destruct (String.eqb (snd (components name)) ".").
      * cbn. repeat split; [now left | exact F1 | exact T1 | exact D1].
      * pose proof (os_mkdir_step name w1) as (R & F2 & T2 & D2).
        split; [exact R | split; [congruence | split; [congruence|]]].
        clear R. set_solver.
    + exact IH.
Qed.

Lemma make_dir_some p w :
  exists w', _make_dir (Some p) w = (Ok tt, w')
             /\ files w' = files w /\ tmp_names w' = tmp_names w.
Proof.
  unfold _make_dir, try_except_OSError_pass, os_makedirs.
  pose proof (makedirs_go_step (S (String.length p)) p w) as (R & F & T & _).
  destruct (makedirs_go (S (String.length p)) p w) as [r w1]; cbn [fst snd] in *.
  destruct R as [R|R]; rewrite R; exists w1; repeat split; assumption.
Qed.

(** *** The recursion of [os.makedirs] ends *)

Lemma cut_length (p : string) :
  (String.length (fst (PosixPath.cut_last_slash p))
   + String.length (snd (PosixPath.cut_last_slash p)) = String.length p)%nat.
Proof.
  induction p as [|c r IH]; [reflexivity|].
  cbn [PosixPath.cut_last_slash].
  destruct (PosixPath.cut_last_slash r) as [[|x h] t]; cbn [fst snd] in *.
  - destruct (Ascii.eqb c Py.slash); cbn [fst snd String.length] in *; lia.
  - cbn [String.length] in *. lia.
Qed.

Lemma rstrip_length (s : string) :
  (String.length (Py.rstrip_slash s) <= String.length s)%nat.
Proof.
  induction s as [|a s IH]; [reflexivity|].
  cbn [Py.rstrip_slash].
  destruct (Py.rstrip_slash s) as [|x r].
  - destruct (Ascii.eqb a Py.slash); cbn [String.length] in *; lia.
  - cbn [String.length] in *. lia.
Qed.

Lemma split_length (p : string) :
  (String.length (fst (PosixPath.split p)) + String.length (snd (PosixPath.split p))
   <= String.length p)%nat.
Proof.
  unfold PosixPath.split. pose proof (cut_length p) as H.
  destruct (PosixPath.cut_last_slash p) as [h t]; cbn [fst snd] in *.
  destruct (Py.truthy h && negb (Py.all_slashes h)); cbn [fst snd]; [|lia].
  pose proof (rstrip_length h). lia.
Qed.

Lemma components_length (name : string) :
  Py.truthy (snd (components name)) = true ->
  (String.length (fst (components name)) < String.length name)%nat.
Proof.
  unfold components. pose proof (split_length name) as H.
  destruct (PosixPath.split name) as [h t]; cbn [fst snd] in *.
  destruct (Py.truthy t) eqn:Ht; cbn [fst snd].
  - intros _. destruct t; [discriminate|]. cbn [String.length] in H. lia.
  - pose proof (split_length h) as H2.
    destruct (PosixPath.split h) as [h2 t2]; cbn [fst snd] in *.
    intros Ht2. destruct t2; [discriminate|]. cbn [String.length] in H2. lia.
Qed.

(** More calls than the name has characters change nothing: the count
    that [os_makedirs] allows is never used up. *)
Lemma makedirs_go_fuel (n m : nat) (name : string) :
  (String.length name < n)%nat -> (String.length name < m)%nat ->
  makedirs_go n name = makedirs_go m name.
Proof.
  revert m name. induction n as [|n IH]; intros m name Hn Hm; [lia|].
  destruct m as [|m]; [lia|].
  cbn [makedirs_go]. pose proof (components_length name) as L.
  destruct (components name) as [head tail]; cbn [fst snd] in L.
  destruct (Py.truthy tail) eqn:Ht.
  - rewrite (IH m head) by (specialize (L eq_refl); lia). reflexivity.
  - now rewrite andb_false_r.
Qed.

Lemma make_dir_some_run p w : _make_dir (Some p) w = (Ok tt, snd (_make_dir (Some p) w)).
Proof. destruct (make_dir_some p w) as (w' & E & _). now rewrite E. Qed.

Lemma set_filename_run (s0 : JobScript) (w : world) :
  let fn := PosixPath.join (fst (PosixPath.split (outdir s0))) ["sh"; jobname s0 ++ ".sh"] in
  let w1 := snd (_make_dir (Some (PosixPath.join (fst (PosixPath.split (outdir s0))) ["sh"])) w) in
  _set_filename (s0, w)
  = if os_path_exists fn w1 then
      match first_fresh (tmp_names w1) w1 with
      | None => (Raise OSError, (with_filename fn s0, w1))
      | Some (n, rest) =>
          (Ok tt, (with_delete_sh true (with_filename n (with_filename fn s0)),
                   World (<[n := ""]> (files w1)) (dirs w1) rest))
      end
    else (Ok tt, (with_filename fn s0, w1)).
Proof.
  intros fn w1. unfold _set_filename. rewrite bind_self.
  erewrite bind_ok by (rewrite io_run, make_dir_some_run; reflexivity).
  fold fn. fold w1.
  erewrite bind_ok by reflexivity.
  erewrite bind_ok by (rewrite io_run; reflexivity).
  cbn [fst snd].
  destruct (os_path_exists fn w1); [|reflexivity].
  unfold bind at 1. rewrite io_run. unfold NamedTemporaryFile.
  destruct (first_fresh (tmp_names w1) w1) as [[n rest]|]; reflexivity.
Qed.

Section HeaderOutcome.
Variable git_info : string.
Variable float_str : spec_float -> string.

Lemma write_header_outcome (j : JobScript) (w : world) :
  exists w', _write_header git_info float_str (j, w) = (header_outcome j, (j, w'))
             /\ untouched_except (filename j) w w'.
Proof.
  unfold header_outcome.
  destruct (queue_accepted (queue j)) eqn:Hq; cbn [negb].
  - destruct (PyFloat.of_int (threads j)) as [t|e] eqn:Ht.
    + destruct (PyFloat.int_div (memory j) t) as [q|e] eqn:Hd.
      * destruct (write_header_run git_info float_str j w t q Hq Ht Hd) as (w' & E & _ & U).
        exists w'. split; assumption.
      * unfold _write_header. rewrite bind_self, io_run.
        match goal with |- context [fst (?c w)] =>
          assert (R : wruns c (filename j) (Raise e) w) end.
        { eapply wruns_bind; [apply wemits_open | intros w1].
          eapply wruns_bind; [apply wemits_write | intros w2].
          eapply wruns_bind; [apply queue_branch_accepted; exact Hq | intros w3].
          eapply wruns_bind; [apply wemits_write | intros w4].
          rewrite Ht. exists w4. split; [|apply untouched_refl].
          erewrite bind_ok by reflexivity. rewrite Hd. reflexivity. }
        destruct R as (w' & E & U). rewrite E. exists w'. split; [reflexivity | exact U].
    + unfold _write_header. rewrite bind_self, io_run.
      match goal with |- context [fst (?c w)] =>
        assert (R : wruns c (filename j) (Raise e) w) end.
      { eapply wruns_bind; [apply wemits_open | intros w1].
        eapply wruns_bind; [apply wemits_write | intros w2].
        eapply wruns_bind; [apply queue_branch_accepted; exact Hq | intros w3].
        eapply wruns_bind; [apply wemits_write | intros w4].
        rewrite Ht. exists w4. split; [reflexivity | apply untouched_refl]. }
      destruct R as (w' & E & U). rewrite E. exists w'. split; [reflexivity | exact U].
  - unfold _write_header. rewrite bind_self, io_run.
    match goal with |- context [fst (?c w)] =>
      assert (R : wruns c (filename j) (Raise AssertionError) w) end.
    { eapply wruns_bind; [apply wemits_open | intros w1].
      eapply wruns_bind; [apply wemits_write | intros w2].
      apply wruns_bind_raise.
      exists w2. split; [apply queue_branch_rejected; exact Hq | apply untouched_refl]. }
    destruct R as (w' & E & U). rewrite E. exists w'. split; [reflexivity | exact U].
Qed.
End HeaderOutcome.

Section Init.
Variable realpath : string -> string.
Variable git_info : string.
Variable float_str : spec_float -> string.

Lemma dirs_made_run a w :
  dirs_made a w
  = match arg_linkdir a with
    | None => (Raise TypeError, snd (_make_dir (Some (arg_outdir a)) w))
    | Some l =>
        (Ok tt,
         snd (_make_dir (Some (PosixPath.join (fst (PosixPath.split (arg_outdir a))) ["sh"]))
           (snd (_make_dir (Some (PosixPath.join (fst (PosixPath.split (arg_outdir a))) ["logs"]))
              (snd (_make_dir (Some l)
                 (snd (_make_dir (Some (arg_outdir a)) w))))))))
    end.
Proof.
  unfold dirs_made.
  erewrite bind_ok by apply make_dir_some_run.
  destruct (arg_linkdir a) as [l|]; [|reflexivity].
  erewrite bind_ok by apply make_dir_some_run.
  erewrite bind_ok by apply make_dir_some_run.
  apply make_dir_some_run.
Qed.

(** [__init__] ends as [init_outcome] says; when it returns, the object
    carries the thread count and the memory it was given. *)
Lemma init_run (a : init_args) (w : world) :
  exists w',
    match init_outcome a w with
    | Ok _ => exists j, __init__ realpath git_info float_str a w = (Ok j, w')
                        /\ PyInt (threads j) = arg_threads a
                        /\ PyInt (memory j) = arg_memory a
    | Raise e => __init__ realpath git_info float_str a w = (Raise e, w')
    end.
Proof.
  unfold init_outcome, __init__.
  destruct (arg_threads a) as [t| | | |] eqn:Hth;
    try (eexists; erewrite bind_ok by apply make_dir_some_run; reflexivity).
  destruct (arg_memory a) as [m| | | |] eqn:Hme;
    try (eexists; erewrite bind_ok by apply make_dir_some_run; reflexivity).
  unfold scratch_available. rewrite dirs_made_run.
  destruct (arg_linkdir a) as [l|] eqn:Hld.
  2:{ eexists. erewrite bind_ok by apply make_dir_some_run. reflexivity. }
  cbn [snd].
  erewrite bind_ok by apply make_dir_some_run.
  erewrite bind_ok by reflexivity.
  erewrite bind_ok by reflexivity.
  erewrite bind_ok by apply make_dir_some_run.
  erewrite bind_ok by apply make_dir_some_run.
  unfold bind. rewrite set_filename_run. cbn [outdir jobname].
  unfold script_path.
  match goal with |- context [os_path_exists ?fn ?w1] =>
    set (p := fn); set (w1' := w1) end.
  destruct (os_path_exists p w1'); cbn [negb orb].
  - destruct (first_fresh (tmp_names w1') w1') as [[n rest]|]; [|eexists; reflexivity].
    cbv iota.
    match goal with |- context [_write_header _ _ (?j, ?w2)] =>
      destruct (write_header_outcome git_info float_str j w2) as (w' & E & _); rewrite E end.
    unfold header_outcome. cbn [queue threads memory with_delete_sh with_filename].
    exists w'.
    destruct (queue_accepted (arg_queue a)); cbn [negb]; [|reflexivity].
    destruct (PyFloat.of_int t) as [ft|e1]; [|reflexivity].
    destruct (PyFloat.int_div m ft) as [q|e2]; [|reflexivity].
    eexists. split; [reflexivity | split; reflexivity].
  - match goal with |- context [_write_header _ _ (?j, ?w2)] =>
      destruct (write_header_outcome git_info float_str j w2) as (w' & E & _); rewrite E end.
    unfold header_outcome. cbn [queue threads memory with_delete_sh with_filename].
    exists w'.
    destruct (queue_accepted (arg_queue a)); cbn [negb]; [|reflexivity].
    destruct (PyFloat.of_int t) as [ft|e1]; [|reflexivity].
    destruct (PyFloat.int_div m ft) as [q|e2]; [|reflexivity].
    eexists. split; [reflexivity | split; reflexivity].
Qed.

Lemma init_same_outcome (a : init_args) (w : world) :
  same_outcome (fst (__init__ realpath git_info float_str a w)) (init_outcome a w).
Proof.
  destruct (init_run a w) as (w' & H).
  destruct (init_outcome a w) as [u|e].
  - destruct H as (j & E & _). now rewrite E.
  - now rewrite H.
Qed.





(** C10: with the link directory left at [None], construction raises
    before any file is created or written: the assertion failure of a
    non-int [threads] or [memory], or else the [TypeError] of
    [os.makedirs(None)], which [_make_dir] does not catch since it is no
    [OSError]. *)
Theorem init_without_linkdir_raises (a : init_args) (w : world) :
  arg_linkdir a = None ->
  exists e w',
    __init__ realpath git_info float_str a w = (Raise e, w')
    /\ e = (if is_int (arg_threads a) && is_int (arg_memory a)
            then TypeError else AssertionError)
    /\ e <> OSError
    /\ files w' = files w.
Proof.
  intros Hl. unfold __init__.
  destruct (make_dir_some (arg_outdir a) w) as (w1 & E1 & F1 & _).
  erewrite bind_ok by exact E1.
  destruct (arg_threads a) as [t| | | |];
    try (exists AssertionError, w1; repeat split; [discriminate | exact F1]).
  destruct (arg_memory a) as [m| | | |];
    try (exists AssertionError, w1; repeat split; [discriminate | exact F1]).
  rewrite Hl. exists TypeError, w1. repeat split; [discriminate | exact F1].
Qed.

End Init.



Lemma init_without_linkdir_raises_witness :
  arg_linkdir no_linkdir_args = None
  /\ exists w',
       __init__ realpath_plain "v1.0" whole_float_str no_linkdir_args world_with_script
       = (Raise TypeError, w')
       /\ files w' = files world_with_script.
Proof.
  split; [reflexivity|].
  destruct (init_without_linkdir_raises realpath_plain "v1.0" whole_float_str
              no_linkdir_args world_with_script eq_refl) as (e & w' & E & He & _ & F).
  exists w'. cbn in He. subst e. split; [exact E | exact F].
Defined.

Lemma first_fresh_is_fresh names w n rest :
  first_fresh names w = Some (n, rest) -> os_path_exists n w = false.
Proof.
  induction names as [|x xs IH]; cbn [first_fresh]; [discriminate|].
  destruct (os_path_exists x w) eqn:Hx; [exact IH|].
  intros [= <- _]. exact Hx.
Qed.

Section ExistingScript.

Variable realpath : string -> string.
Variable git_info : string.
Variable float_str : spec_float -> string.

(** X15: a script that is already at the job's script path is left as it
    is by construction: the header goes to a scratch file, whose name is
    not the script's path, and the job is marked for deletion of its
    script. *)
Lemma init_keeps_existing_script (a : init_args) (w : world) :
  is_Some (files w !! script_path a) ->
  files (snd (__init__ realpath git_info float_str a w)) !! script_path a
  = files w !! script_path a
  /\ (forall j, fst (__init__ realpath git_info float_str a w) = Ok j ->
                delete_sh j = true /\ filename j ≠ script_path a).
Proof.
  intros Hex. unfold __init__.
  destruct (make_dir_some (arg_outdir a) w) as (w1 & E1 & F1 & T1).
  erewrite bind_ok by exact E1.
  destruct (arg_threads a) as [t| | | |];
    try (erewrite bind_raise by reflexivity; cbn [fst snd]; rewrite F1;
         split; [reflexivity | discriminate]).
  destruct (arg_memory a) as [m| | | |];
    try (erewrite bind_ok by reflexivity; erewrite bind_raise by reflexivity;
         cbn [fst snd]; rewrite F1; split; [reflexivity | discriminate]).
  erewrite bind_ok by reflexivity.
  erewrite bind_ok by reflexivity.
  destruct (arg_linkdir a) as [l|];
    [|erewrite bind_raise by reflexivity; cbn [fst snd]; rewrite F1;
      split; [reflexivity | discriminate]].
  destruct (make_dir_some l w1) as (w2 & E2 & F2 & T2).
  erewrite bind_ok by exact E2.
  destruct (make_dir_some
              (PosixPath.join (fst (PosixPath.split (arg_outdir a))) ["logs"]) w2)
    as (w3 & E3 & F3 & T3).
  erewrite bind_ok by exact E3.
  unfold bind. rewrite set_filename_run. cbn [outdir jobname].
  destruct (make_dir_some
              (PosixPath.join (fst (PosixPath.split (arg_outdir a))) ["sh"]) w3)
    as (w4 & E4 & F4 & T4).
  rewrite E4. cbn [snd].
  change (PosixPath.join (fst (PosixPath.split (arg_outdir a)))
            ["sh"; (arg_sample_name a ++ "_" ++ arg_job_suffix a) ++ ".sh"])
    with (script_path a).
  assert (F : files w4 = files w) by congruence.
  assert (Hp : os_path_exists (script_path a) w4 = true).
  { unfold os_path_exists. rewrite F. rewrite bool_decide_eq_true_2 by exact Hex. reflexivity. }
  rewrite Hp.
  destruct (first_fresh (tmp_names w4) w4) as [[n rest]|] eqn:Hf.
  2:{ cbn [fst snd]. rewrite F. split; [reflexivity | discriminate]. }
  apply first_fresh_is_fresh in Hf.
  assert (Hn : script_path a ≠ n) by (intros Heq; rewrite Heq in Hp; congruence).
  match goal with |- context [_write_header _ _ (?j, ?w2)] =>
    destruct (write_header_outcome git_info float_str j w2) as (w' & E & U); rewrite E end.
  cbn [filename with_delete_sh with_filename] in U.
  assert (Hw : files w' !! script_path a = files w !! script_path a).
  { rewrite (U _ Hn). cbn [files]. rewrite lookup_insert_ne by (intros Heq; exact (Hn (eq_sym Heq))). now rewrite F. }
  destruct (header_outcome _) as [u|e]; cbn [fst snd].
  - split; [exact Hw|]. intros j [= <-]. cbn.
    split; [reflexivity | intros Heq; exact (Hn (eq_sym Heq))].
  - split; [exact Hw | discriminate].
Qed.

End ExistingScript.

(** The submit command names each job waited for once, separated by
    commas, and has no hold clause without them. *)
Lemma sge_submit_command_holds (j : JobScript) (names : list string) :
  wait_for j = Some names -> names <> [] ->
  sge_submit_command j = "qsub -hold_jid " ++ Py.join "," names ++ " " ++ filename j.
Proof.
  intros H Hne. unfold sge_submit_command. rewrite H.
  destruct names; [congruence | reflexivity].
Qed.

Lemma sge_submit_command_free (j : JobScript) :
  wait_for j = None \/ wait_for j = Some [] ->
  sge_submit_command j = "qsub " ++ filename j.
Proof. unfold sge_submit_command. intros [-> | ->]; reflexivity. Qed.

(** Quotients that are whole numbers are exact in the directive: for up
    to 64 threads and up to 64 Gb per thread, [memory / float(threads)] is
    the double of the whole quotient. *)
Lemma small_whole_quotients_exact :
  forallb (fun t =>
    forallb (fun k =>
      match PyFloat.of_int t, PyFloat.of_int k with
      | Ok ft, Ok fk =>
          match PyFloat.int_div (k * t) ft with
          | Ok q => SFeqb q fk
          | Raise _ => false
          end
      | _, _ => false
      end) (map Z.of_nat (seq 1 64))) (map Z.of_nat (seq 1 64)) = true.
Proof. vm_compute. reflexivity. Qed.
Example split_file : PosixPath.split "/out/alignment/S1.bam" = ("/out/alignment", "S1.bam").
Proof. reflexivity. Qed.

Example split_root : PosixPath.split "/S1.bam" = ("/", "S1.bam").
Proof. reflexivity. Qed.

Example split_trailing : PosixPath.split "/out/alignment/" = ("/out/alignment", "").
Proof. reflexivity. Qed.

Example split_plain : PosixPath.split "S1.bam" = ("", "S1.bam").
Proof. reflexivity. Qed.

Example join_three : PosixPath.join "/out" ["sh"; "S1_sort.sh"] = "/out/sh/S1_sort.sh".
Proof. reflexivity. Qed.

Example join_absolute : PosixPath.join "/out" ["/data/x"] = "/data/x".
Proof. reflexivity. Qed.

Example split_on_comma : Py.split_on ","%char "bedtools,samtools" = ["bedtools"; "samtools"].
Proof. reflexivity. Qed.

Example str_int_neg : Py.str_int (-12) = "-12".
Proof. reflexivity. Qed.

Example submit_sort :
  sge_submit_command sort_job = "qsub -hold_jid S1_align /out/sh/S1_sort.sh".
Proof. reflexivity. Qed.

Example submit_count :
  sge_submit_command count_job = "qsub -hold_jid S1_sort,S1_align /out/sh/S1_count.sh".
Proof. reflexivity. Qed.

Example submit_align : sge_submit_command align_job = "qsub /out/sh/S1_align.sh".
Proof. reflexivity. Qed.

(** *** Strings and paths *)

Lemma startswith_app (a b : string) : Py.startswith a (a ++ b) = true.
Proof.
  induction a as [|c a IH]; [reflexivity|].
  change (String c a ++ b) with (String c (a ++ b)). cbn [Py.startswith].
  now rewrite Ascii.eqb_refl, IH.
Qed.

Lemma contains_cons_false (x : string) (c : ascii) (s : string) :
  Py.contains x (String c s) = false -> Py.contains x s = false.
Proof.
  cbn [Py.contains]. intros H. apply orb_false_iff in H. tauto.
Qed.

Lemma no_char_head (c d : ascii) (s : string) :
  Py.contains (String c "") (String d s) = false -> Ascii.eqb d c = false.
Proof.
  cbn [Py.contains Py.startswith]. intros H. apply orb_false_iff in H.
  destruct H as [H _]. rewrite Ascii.eqb_sym.
  destruct (Ascii.eqb c d); [discriminate H | reflexivity].
Qed.

Lemma contains_app_r (x a s : string) :
  Py.contains x s = true -> Py.contains x (a ++ s) = true.
Proof.
  intros H. induction a as [|c a IH]; [exact H|].
  change (String c a ++ s) with (String c (a ++ s)). cbn [Py.contains].
  rewrite IH. apply orb_true_r.
Qed.

Lemma startswith_app_l (x s b : string) :
  Py.startswith x s = true -> Py.startswith x (s ++ b) = true.
Proof.
  revert s. induction x as [|c x IH]; intros s H; [reflexivity|].
  destruct s as [|d s]; [discriminate H|].
  change (String d s ++ b) with (String d (s ++ b)).
  cbn [Py.startswith] in *. apply andb_true_iff in H. destruct H as [H1 H2].
  now rewrite H1, IH.
Qed.

Lemma contains_app_l (x s b : string) :
  Py.contains x s = true -> Py.contains x (s ++ b) = true.
Proof.
  induction s as [|c s IH]; intros H.
  - cbn [Py.contains] in H. rewrite orb_false_r in H.
    destruct x; [|discriminate H]. destruct b; reflexivity.
  - change (String c s ++ b) with (String c (s ++ b)).
    cbn [Py.contains] in *. apply orb_true_iff in H. destruct H as [H|H].
    + pose proof (startswith_app_l _ (String c s) b H) as H'.
      change (String c s ++ b) with (String c (s ++ b)) in H'.
      rewrite H'. reflexivity.
    + rewrite (IH H). apply orb_true_r.
Qed.

Lemma contains_self_app (x b : string) : Py.contains x (x ++ b) = true.
Proof.
  destruct (x ++ b) eqn:E; cbn [Py.contains]; rewrite <- E, startswith_app; reflexivity.
Qed.

Lemma contains_in_join (sep x : string) (l : list string) :
  In x l -> Py.contains x (Py.join sep l) = true.
Proof.
  induction l as [|y l IH]; [contradiction|].
  intros [->|Hin].
  - destruct l as [|z l]; cbn [Py.join].
    + rewrite <- (append_nil_r x) at 2. apply contains_self_app.
    + apply contains_self_app.
  - destruct l as [|z l]; [contradiction|].
    change (Py.join sep (y :: z :: l)) with (y ++ sep ++ Py.join sep (z :: l)).
    apply contains_app_r, contains_app_r, IH, Hin.
Qed.

(** [s.split(',')] undoes [','.join(names)] when no name holds a comma. *)
Lemma split_on_no_sep (c : ascii) (s : string) :
  Py.contains (String c "") s = false -> Py.split_on c s = [s].
Proof.
  induction s as [|d s IH]; intros H; [reflexivity|].
  cbn [Py.split_on]. rewrite (no_char_head _ _ _ H).
  now rewrite (IH (contains_cons_false _ _ _ H)).
Qed.

Lemma split_on_app (c : ascii) (a rest : string) :
  Py.contains (String c "") a = false ->
  Py.split_on c (a ++ String c rest) = a :: Py.split_on c rest.
Proof.
  induction a as [|d a IH]; intros H.
  - change ("" ++ String c rest) with (String c rest).
    cbn [Py.split_on]. now rewrite Ascii.eqb_refl.
  - change (String d a ++ String c rest) with (String d (a ++ String c rest)).
    cbn [Py.split_on]. rewrite (no_char_head _ _ _ H).
    now rewrite (IH (contains_cons_false _ _ _ H)).
Qed.

Lemma split_on_join (c : ascii) (names : list string) :
  names <> [] ->
  Forall (fun n => Py.contains (String c "") n = false) names ->
  Py.split_on c (Py.join (String c "") names) = names.
Proof.
  intros Hne HF. induction HF as [|n l Hn HF IH]; [congruence|].
  destruct l as [|m l].
  - cbn [Py.join]. now apply split_on_no_sep.
  - change (Py.join (String c "") (n :: m :: l))
      with (n ++ String c (Py.join (String c "") (m :: l))).
    rewrite split_on_app by exact Hn. f_equal. apply IH. discriminate.
Qed.

Lemma cut_no_slash (s : string) :
  Py.contains "/" s = false -> PosixPath.cut_last_slash s = ("", s).
Proof.
  induction s as [|d s IH]; intros H; [reflexivity|].
  cbn [PosixPath.cut_last_slash].
  rewrite (IH (contains_cons_false _ _ _ H)).
  unfold Py.slash. now rewrite (no_char_head _ _ _ H).
Qed.

Lemma cut_app_slash (a b : string) :
  Py.contains "/" b = false ->
  PosixPath.cut_last_slash (a ++ String "/" b) = (a ++ "/", b).
Proof.
  intros Hb. induction a as [|d a IH].
  - change ("" ++ String "/" b) with (String "/" b).
    cbn [PosixPath.cut_last_slash]. rewrite (cut_no_slash b Hb). reflexivity.
  - change (String d a ++ String "/" b) with (String d (a ++ String "/" b)).
    cbn [PosixPath.cut_last_slash]. rewrite IH.
    destruct a; reflexivity.
Qed.

Lemma cut_tail_no_slash (p : string) :
  Py.contains "/" (snd (PosixPath.cut_last_slash p)) = false.
Proof.
  induction p as [|c p IH]; [reflexivity|].
  cbn [PosixPath.cut_last_slash].
  destruct (PosixPath.cut_last_slash p) as [h t]. cbn [snd] in IH.
  destruct h as [|x h]; [|exact IH].
  destruct (Ascii.eqb c Py.slash) eqn:E; [exact IH|].
  cbn [snd Py.contains Py.startswith]. rewrite IH.
  unfold Py.slash in E. rewrite Ascii.eqb_sym, E. reflexivity.
Qed.

Lemma split_snd (p : string) :
  snd (PosixPath.split p) = snd (PosixPath.cut_last_slash p).
Proof.
  unfold PosixPath.split. destruct (PosixPath.cut_last_slash p) as [h t].
  destruct (Py.truthy h && negb (Py.all_slashes h)); reflexivity.
Qed.

Lemma basename_no_slash (p : string) :
  Py.contains "/" (snd (PosixPath.split p)) = false.
Proof. rewrite split_snd. apply cut_tail_no_slash. Qed.

Lemma ends_with_slash_app (d : string) :
  Py.ends_with_slash d = true -> exists a, d = a ++ "/".
Proof.
  induction d as [|c d IH]; [discriminate|].
  cbn [Py.ends_with_slash]. destruct d as [|c' d'].
  - intros H. apply Ascii.eqb_eq in H. subst c. now exists "".
  - intros H. destruct (IH H) as [a Ha]. exists (String c a).
    change (String c a ++ "/") with (String c (a ++ "/")). now rewrite <- Ha.
Qed.

Lemma no_slash_not_absolute (b : string) :
  Py.contains "/" b = false -> Py.startswith "/" b = false.
Proof.
  destruct b as [|c b]; [reflexivity|].
  cbn [Py.contains]. intros H. apply orb_false_iff in H. tauto.
Qed.

(** Joining a directory and a slash-free name, then splitting, gives the
    name back. *)
Lemma split_join_step (d b : string) :
  Py.contains "/" b = false ->
  snd (PosixPath.split (PosixPath.join_step d b)) = b.
Proof.
  intros Hb. rewrite split_snd. unfold PosixPath.join_step.
  rewrite (no_slash_not_absolute b Hb).
  destruct d as [|c d].
  - cbn [Py.truthy negb orb]. change ("" ++ b) with b.
    now rewrite (cut_no_slash b Hb).
  - cbn [Py.truthy negb orb].
    destruct (Py.ends_with_slash (String c d)) eqn:E.
    + destruct (ends_with_slash_app _ E) as [a Ha]. rewrite Ha.
      rewrite append_assoc. change ("/" ++ b) with (String "/" b).
      now rewrite cut_app_slash.
    + change ("/" ++ b) with (String "/" b). now rewrite cut_app_slash.
Qed.

Lemma join_step_prefix (d b : string) :
  Py.contains "/" b = false -> Py.startswith d (PosixPath.join_step d b) = true.
Proof.
  intros Hb. unfold PosixPath.join_step. rewrite (no_slash_not_absolute b Hb).
  destruct (negb (Py.truthy d) || Py.ends_with_slash d); apply startswith_app.
Qed.

(** *** Submit commands *)

(** X1: without dependencies the submit command has no hold clause; with
    dependencies whose names hold no comma, splitting the hold argument at
    the commas gives back exactly the job names waited for, in order. *)
Theorem submit_command_hold_names (j : JobScript) :
  (wait_for j = None \/ wait_for j = Some [] ->
   sge_submit_command j = "qsub " ++ filename j)
  /\ (forall names,
        wait_for j = Some names -> names <> [] ->
        Forall (fun n => Py.contains "," n = false) names ->
        exists holds,
          sge_submit_command j = "qsub -hold_jid " ++ holds ++ " " ++ filename j
          /\ Py.split_on ","%char holds = names).
Proof.
  split.
  - unfold sge_submit_command. intros [-> | ->]; reflexivity.
  - intros names Hw Hne HF. exists (Py.join "," names). split.
    + unfold sge_submit_command. rewrite Hw.
      destruct names; [congruence | reflexivity].
    + apply split_on_join; assumption.
Qed.

Lemma submit_command_hold_names_witness :
  wait_for count_job = Some ["S1_sort"; "S1_align"]
  /\ exists holds,
       sge_submit_command count_job
       = "qsub -hold_jid " ++ holds ++ " " ++ "/out/sh/S1_count.sh"
       /\ Py.split_on ","%char holds = ["S1_sort"; "S1_align"].
Proof.
  split; [reflexivity|].
  apply (proj2 (submit_command_hold_names count_job) ["S1_sort"; "S1_align"]);
    [reflexivity | discriminate | repeat constructor].
Defined.

(** *** Staged paths *)

Lemma temp_file_path_join (j : JobScript) (fn : string) :
  temp_file_path j fn = PosixPath.join_step (tempdir j) (snd (PosixPath.split fn)).
Proof. reflexivity. Qed.

(** X2: the staged path of any file lies in the temp directory (it
    starts with it, also for an absolute input path), keeps the base name
    of the file, and is its own staged path. *)
Theorem temp_file_path_in_tempdir (j : JobScript) (fn : string) :
  Py.startswith (tempdir j) (temp_file_path j fn) = true
  /\ snd (PosixPath.split (temp_file_path j fn)) = snd (PosixPath.split fn)
  /\ temp_file_path j (temp_file_path j fn) = temp_file_path j fn.
Proof.
  pose proof (basename_no_slash fn) as Hb.
  assert (Hs : snd (PosixPath.split (temp_file_path j fn)) = snd (PosixPath.split fn)).
  { rewrite temp_file_path_join. now apply split_join_step. }
  split; [|split; [exact Hs|]].
  - rewrite temp_file_path_join. now apply join_step_prefix.
  - rewrite (temp_file_path_join j (temp_file_path j fn)), Hs. reflexivity.
Qed.

Section StagingModes.

Variable realpath : string -> string.

(** X3: [add_input_file] stages a file exactly when [copy] is true, or
    is left out and the job copies its inputs; an explicit [copy=False]
    wins over the job-wide setting. A staged file is registered and its
    path in the temp directory returned; otherwise the job is unchanged and
    the real path of the file is returned. No mode writes to any file. *)
Theorem add_input_file_modes (fn : string) (copy : option bool) (j : JobScript) (w : world) :
  let staged := match copy with Some b => b | None => copy_input j end in
  exists j1,
    add_input_file realpath fn copy (j, w)
    = (Ok (if staged then temp_file_path j fn else realpath fn), (j1, w))
    /\ input_files_to_copy j1
       = (if staged then input_files_to_copy j ++ [fn] else input_files_to_copy j)%list
    /\ (staged = false -> j1 = j)
    /\ temp_files_to_delete j1 = temp_files_to_delete j
    /\ output_files_to_copy j1 = output_files_to_copy j.
Proof.
  destruct copy as [[|]|]; cbn zeta.
  - eexists. split; [reflexivity|]. cbn. repeat split. discriminate.
  - exists j. repeat split.
  - destruct (copy_input j) eqn:Hc.
    + eexists. split.
      { unfold add_input_file, bind, self, set_self, modify, ret. cbn [fst snd].
        rewrite Hc. reflexivity. }
      cbn. repeat split. discriminate.
    + exists j. split.
      { unfold add_input_file, bind, self, ret. cbn [fst snd].
        rewrite Hc. reflexivity. }
      repeat split.
Qed.

End StagingModes.

Section StagedCleanup.

Variable realpath : string -> string.

Lemma write_end_appends (j : JobScript) (w : world) :
  (delete_sh j = true -> jobname j ≠ filename j) ->
  appended (filename j)
    (copy_block realpath j ++ delete_block realpath j ++ rmdir_block realpath j)
    w (snd (snd (write_end realpath (j, w)))).
Proof.
  intros Hne. rewrite write_end_split.
  destruct (finalize_blocks_run realpath j w) as (w4 & E & A & S & U).
  destruct (after_delete_fields realpath j) as (Ff & Fj & Fd & _).
  destruct (softlinks j) as [|p ps].
  - erewrite bind_ok by exact E. rewrite bind_self, Fd, Fj.
    destruct (delete_sh j) eqn:Hd; [|exact A].
    specialize (Hne eq_refl). rewrite io_run. unfold os_remove.
    destruct (files w4 !! jobname j); cbn [fst snd]; [|exact A].
    unfold appended in *. rewrite <- A. unfold contents, set_files; cbn.
    now rewrite lookup_delete_ne.
  - erewrite bind_raise by exact E. exact A.
Qed.

(** X4: a staged input is cleaned up: after [add_input_file(fn,
    copy=True)] and [copy_input_files()], [write_end] writes a delete
    command, and that command names the staged copy of [fn] (unless the job
    works in its output directory and the staged path is a declared
    output). *)
Theorem staged_input_is_deleted_at_finalize (fn : string) (j : JobScript) (w : world) :
  (delete_sh j = true -> jobname j ≠ filename j) ->
  (same_dir realpath (tempdir j) (outdir j) = true ->
   ~ In (temp_file_path j fn) (output_files_to_copy j)) ->
  exists j1 j2 w2,
    add_input_file realpath fn (Some true) (j, w) = (Ok (temp_file_path j fn), (j1, w))
    /\ copy_input_files (j1, w) = (Ok tt, (j2, w2))
    /\ In (temp_file_path j fn) (deletion_set realpath j2)
    /\ appended (filename j)
         (copy_block realpath j2 ++ rm_command (deletion_set realpath j2)
          ++ rmdir_block realpath j2)
         w2 (snd (snd (write_end realpath (j2, w2)))).
Proof.
  intros Hne Hout.
  set (j1 := with_input_files_to_copy (input_files_to_copy j ++ [fn]) j).
  assert (Hin : In fn (input_files_to_copy j1)).
  { subst j1. cbn. apply in_or_app. right. now left. }
  destruct (copy_input_files_run j1 w) as (w2 & E & _ & _).
  { intros H. rewrite H in Hin. exact Hin. }
  exists j1. eexists. exists w2. split; [reflexivity | split; [exact E|]].
  match type of E with _ = (_, (?x, _)) => set (j2 := x) in * end.
  assert (Ht : In (temp_file_path j fn) (temp_files_to_delete j2)).
  { subst j2. cbn [temp_files_to_delete with_temp_files_to_delete].
    apply in_or_app. right.
    change (temp_file_path j fn) with (temp_file_path j1 fn).
    apply in_map. exact Hin. }
  assert (Hd : In (temp_file_path j fn) (deletion_set realpath j2)).
  { unfold deletion_set.
    change (tempdir j2) with (tempdir j). change (outdir j2) with (outdir j).
    change (output_files_to_copy j2) with (output_files_to_copy j).
    destruct (same_dir realpath (tempdir j) (outdir j)) eqn:Hs; [|exact Ht].
    apply filter_In. split; [exact Ht|]. apply not_in_true. now apply Hout. }
  split; [exact Hd|].
  pose proof (write_end_appends j2 w2 Hne) as A.
  unfold delete_block in A.
  destruct (temp_files_to_delete j2); [contradiction | exact A].
Qed.

(** X5: staging a file that already lies in the temp directory returns
    the file's own path: the copy command then has the file as a source and
    its own directory as destination, and the file itself is put on the
    list of temporaries to delete. *)
Theorem input_in_tempdir_is_its_own_copy (base : string) (j : JobScript) (w : world) :
  Py.contains "/" base = false ->
  let fn := PosixPath.join (tempdir j) [base] in
  exists j1 j2,
    add_input_file realpath fn (Some true) (j, w) = (Ok fn, (j1, w))
    /\ emits copy_input_files j1 j2 (filename j)
         (rsync_command (input_files_to_copy j1) (tempdir j)) w
    /\ In fn (input_files_to_copy j1)
    /\ In fn (temp_files_to_delete j2).
Proof.
  intros Hb fn.
  assert (Hfn : temp_file_path j fn = fn).
  { rewrite temp_file_path_join. subst fn. cbn [PosixPath.join fold_left].
    now rewrite split_join_step. }
  set (j1 := with_input_files_to_copy (input_files_to_copy j ++ [fn]) j).
  assert (Hin : In fn (input_files_to_copy j1)).
  { subst j1. cbn. apply in_or_app. right. now left. }
  exists j1. eexists. split; [|split; [|split; [exact Hin|]]].
  - change (add_input_file realpath fn (Some true) (j, w))
      with (Ok (temp_file_path j fn), (j1, w)). now rewrite Hfn.
  - apply (copy_input_files_run j1 w). intros H. rewrite H in Hin. exact Hin.
  - cbn [temp_files_to_delete with_temp_files_to_delete].
    apply in_or_app. right. rewrite <- Hfn at 1.
    change (temp_file_path j fn) with (temp_file_path j1 fn).
    apply in_map. exact Hin.
Qed.

(** X6: when the job works in its output directory and every listed
    temporary is also a declared output, [_delete_temp_files] still writes
    its command, with no operand, and leaves the list of temporaries
    empty. *)
Theorem delete_command_without_operands (j : JobScript) (w : world) :
  realpath (tempdir j) = realpath (outdir j) ->
  temp_files_to_delete j <> [] ->
  (forall p, In p (temp_files_to_delete j) -> In p (output_files_to_copy j)) ->
  emits (_delete_temp_files realpath) j (with_temp_files_to_delete [] j) (filename j)
    ("rm -r \" ++ Py.nl ++ Py.tab ++ Py.nl ++ Py.nl) w.
Proof.
  intros Hsame Hne Hall.
  assert (Hd : same_dir realpath (tempdir j) (outdir j) = true).
  { unfold same_dir. rewrite Hsame. apply String.eqb_refl. }
  assert (Hf : deletion_set realpath j = []).
  { unfold deletion_set. rewrite Hd. clear Hne. revert Hall.
    generalize (temp_files_to_delete j) as l.
    induction l as [|t ts IH]; intros Hall; [reflexivity|].
    cbn [List.filter].
    assert (Ht : not_in (output_files_to_copy j) t = false).
    { destruct (not_in (output_files_to_copy j) t) eqn:E; [|reflexivity].
      apply not_in_true in E. exfalso. apply E, Hall. now left. }
    rewrite Ht. apply IH. intros p Hp. apply Hall. now right. }
  pose proof (delete_temp_files_run realpath j w) as R.
  unfold after_delete, delete_block in R. rewrite Hd, Hf in R.
  destruct (temp_files_to_delete j); [congruence | exact R].
Qed.

(** X7: with a softlink registered, [write_end] raises [NameError]
    (from [softlink], which reads the unbound name [job]) after the copy,
    delete and remove-directory blocks are written; no link line is
    written and nothing is removed, whatever [delete_sh] says. *)
Theorem write_end_with_softlink_raises (j : JobScript) (w : world) :
  softlinks j <> [] ->
  exists w',
    write_end realpath (j, w) = (Raise NameError, (after_delete realpath j, w'))
    /\ appended (filename j)
         (copy_block realpath j ++ delete_block realpath j ++ rmdir_block realpath j) w w'
    /\ untouched_except (filename j) w w'.
Proof.
  intros Hs. rewrite write_end_split.
  destruct (finalize_blocks_run realpath j w) as (w4 & E & A & _ & U).
  destruct (softlinks j) as [|p ps]; [congruence|].
  exists w4. erewrite bind_raise by exact E. repeat split; assumption.
Qed.

(** X8: [write_end] changes no file other than the job's script and,
    for a redirected job, the file named by the job name; the object it
    leaves differs from the one it found in the list of temporaries only. *)
Theorem write_end_touches_only_script (j : JobScript) (w : world) :
  let j' := fst (snd (write_end realpath (j, w))) in
  let w' := snd (snd (write_end realpath (j, w))) in
  (forall q, q ≠ filename j -> q ≠ jobname j -> files w' !! q = files w !! q)
  /\ (delete_sh j = false -> untouched_except (filename j) w w')
  /\ j' = after_delete realpath j
  /\ output_files_to_copy j' = output_files_to_copy j
  /\ input_files_to_copy j' = input_files_to_copy j
  /\ (forall p, In p (temp_files_to_delete j') -> In p (temp_files_to_delete j)).
Proof.
  cbn zeta. rewrite write_end_split.
  destruct (finalize_blocks_run realpath j w) as (w4 & E & _ & _ & U).
  destruct (after_delete_fields realpath j) as (Ff & Fj & Fd & _).
  assert (Hj : output_files_to_copy (after_delete realpath j) = output_files_to_copy j
               /\ input_files_to_copy (after_delete realpath j) = input_files_to_copy j
               /\ (forall p, In p (temp_files_to_delete (after_delete realpath j)) ->
                             In p (temp_files_to_delete j))).
  { unfold after_delete, deletion_set.
    destruct (temp_files_to_delete j) as [|t ts] eqn:Ht; [rewrite Ht; tauto|].
    destruct (same_dir realpath (tempdir j) (outdir j)); [|rewrite Ht; tauto].
    cbn [output_files_to_copy input_files_to_copy temp_files_to_delete
         with_temp_files_to_delete].
    repeat split. intros p Hp. apply filter_In in Hp. tauto. }
  destruct (softlinks j) as [|p ps].
  - erewrite bind_ok by exact E. rewrite bind_self, Fd, Fj.
    destruct (delete_sh j).
    + rewrite io_run. unfold os_remove.
      destruct (files w4 !! jobname j); cbn [fst snd].
      * split; [|split; [discriminate | split; [reflexivity | exact Hj]]].
        intros q Hq Hq'. unfold set_files; cbn.
        rewrite lookup_delete_ne by congruence. now apply U.
      * split; [|split; [discriminate | split; [reflexivity | exact Hj]]].
        intros q Hq _. now apply U.
    + cbn [fst snd]. split; [|split; [intros _; exact U | split; [reflexivity | exact Hj]]].
      intros q Hq _. now apply U.
  - erewrite bind_raise by exact E. cbn [fst snd].
    split; [|split; [intros _; exact U | split; [reflexivity | exact Hj]]].
    intros q Hq _. now apply U.
Qed.

End StagedCleanup.

Lemma add_input_file_modes_witness :
  exists j1,
    add_input_file realpath_plain "/data/S1.vcf" (Some false)
      (four_thread_job, empty_world)
    = (Ok "/data/S1.vcf", (j1, empty_world))
    /\ j1 = four_thread_job.
Proof.
  destruct (add_input_file_modes realpath_plain "/data/S1.vcf" (Some false)
              four_thread_job empty_world) as (j1 & E & _ & Hj & _).
  exists j1. split; [exact E | exact (Hj eq_refl)].
Defined.

Lemma staged_input_is_deleted_at_finalize_witness :
  (delete_sh align_job = true -> jobname align_job ≠ filename align_job)
  /\ (same_dir realpath_plain (tempdir align_job) (outdir align_job) = true ->
      ~ In (temp_file_path align_job "/data/S1_R1.fastq.gz")
           (output_files_to_copy align_job))
  /\ exists j2, In "/scratch/S1_align/S1_R1.fastq.gz" (deletion_set realpath_plain j2).
Proof.
  split; [discriminate | split; [discriminate|]].
  destruct (staged_input_is_deleted_at_finalize realpath_plain "/data/S1_R1.fastq.gz"
              align_job empty_world ltac:(discriminate) ltac:(discriminate))
    as (j1 & j2 & w2 & _ & _ & H & _).
  exists j2. exact H.
Defined.

Lemma input_in_tempdir_is_its_own_copy_witness :
  Py.contains "/" "S1.bam" = false
  /\ exists j1,
       add_input_file realpath_plain "/out/merge/S1.bam" (Some true)
         (in_place_job, empty_world)
       = (Ok "/out/merge/S1.bam", (j1, empty_world)).
Proof.
  split; [reflexivity|].
  destruct (input_in_tempdir_is_its_own_copy realpath_plain "S1.bam" in_place_job
              empty_world eq_refl) as (j1 & j2 & E & _).
  exists j1. exact E.
Defined.

Lemma write_end_touches_only_script_witness :
  delete_sh sort_job = false
  /\ untouched_except "/out/sh/S1_sort.sh" world_with_script
       (snd (snd (write_end realpath_plain (sort_job, world_with_script)))).
Proof.
  split; [reflexivity|].
  exact (proj1 (proj2 (write_end_touches_only_script realpath_plain sort_job
                         world_with_script)) eq_refl).
Defined.

Lemma delete_command_without_operands_witness :
  realpath_plain (tempdir all_published_job) = realpath_plain (outdir all_published_job)
  /\ temp_files_to_delete all_published_job <> []
  /\ emits (_delete_temp_files realpath_plain) all_published_job
       (with_temp_files_to_delete [] all_published_job) "/out/sh/S1_merge.sh"
       ("rm -r \" ++ Py.nl ++ Py.tab ++ Py.nl ++ Py.nl) empty_world.
Proof.
  split; [reflexivity | split; [discriminate|]].
  apply (delete_command_without_operands realpath_plain all_published_job empty_world);
    [reflexivity | discriminate |].
  intros p [<-|[]]. now left.
Defined.

Lemma write_end_with_softlink_raises_witness :
  softlinks linked_job <> []
  /\ fst (write_end realpath_plain (linked_job, empty_world)) = Raise NameError.
Proof.
  split; [discriminate|].
  destruct (write_end_with_softlink_raises realpath_plain linked_job empty_world
              ltac:(discriminate)) as (w' & E & _).
  now rewrite E.
Defined.

(** *** What construction leaves behind *)

Lemma keeps_paths_refl w : keeps_paths w w.
Proof. now intros p H. Qed.

Lemma keeps_paths_trans w1 w2 w3 :
  keeps_paths w1 w2 -> keeps_paths w2 w3 -> keeps_paths w1 w3.
Proof. intros H1 H2 p H. now apply H2, H1. Qed.

Lemma exists_insert_file p q s w :
  os_path_exists p w = true ->
  os_path_exists p (set_files (<[q := s]>) w) = true.
Proof.
  unfold os_path_exists, set_files; cbn [files dirs]. intros H.
  apply orb_true_iff in H. apply orb_true_iff. destruct H as [H|H]; [left | now right].
  apply bool_decide_eq_true in H. apply bool_decide_eq_true.
  destruct (decide (q = p)) as [->|Hne].
  - rewrite lookup_insert_eq. eauto.
  - now rewrite lookup_insert_ne.
Qed.

Lemma exists_inserted p s w : os_path_exists p (set_files (<[p := s]>) w) = true.
Proof.
  unfold os_path_exists, set_files; cbn [files dirs].
  rewrite bool_decide_eq_true_2; [reflexivity|]. rewrite lookup_insert_eq. eauto.
Qed.

Lemma preserves_ret {A} (a : A) : preserves (ret a).
Proof. intros w. apply keeps_paths_refl. Qed.

Lemma preserves_raise {A} e : preserves (raise e : M world A).
Proof. intros w. apply keeps_paths_refl. Qed.

Lemma preserves_of_result {A} (r : result A) : preserves (of_result r).
Proof. intros w. apply keeps_paths_refl. Qed.

Lemma preserves_assert b : preserves (assert b).
Proof. destruct b; [apply preserves_ret | apply preserves_raise]. Qed.

Lemma preserves_write f t : preserves (write f t).
Proof. intros w p H. unfold write, modify. cbn [snd]. now apply exists_insert_file. Qed.


Lemma preserves_bind {A B} (c : M world A) (k : A -> M world B) :
  preserves c -> (forall a, preserves (k a)) -> preserves (bind c k).
Proof.
  intros Hc Hk w. unfold bind. specialize (Hc w).
  destruct (c w) as [[a|e] w1]; cbn [snd] in *; [|exact Hc].
  eapply keeps_paths_trans; [exact Hc | apply Hk].
Qed.

Lemma preserves_write_modules f ms : preserves (write_modules f ms).
Proof.
  induction ms as [|m r IH]; [apply preserves_ret|].
  cbn [write_modules]. apply preserves_bind; [apply preserves_write | intros _; exact IH].
Qed.


Lemma preserves_tempfile : preserves NamedTemporaryFile.
Proof.
  intros w p H. unfold NamedTemporaryFile.
  destruct (first_fresh (tmp_names w) w) as [[n rest]|]; cbn [snd]; [|exact H].
  unfold os_path_exists in *; cbn [files dirs].
  apply orb_true_iff in H. apply orb_true_iff. destruct H as [H|H]; [left | now right].
  apply bool_decide_eq_true in H. apply bool_decide_eq_true.
  destruct (decide (n = p)) as [->|Hne].
  - rewrite lookup_insert_eq. eauto.
  - now rewrite lookup_insert_ne.
Qed.

Section AfterInit.

Variable realpath : string -> string.
Variable git_info : string.
Variable float_str : spec_float -> string.

(** Whether or not it returns, [_write_header] leaves a file at the
    script's path. *)
Lemma header_creates_script (j : JobScript) (w : world) :
  os_path_exists (filename j)
    (snd (snd (_write_header git_info float_str (j, w)))) = true.
Proof.
  unfold _write_header. rewrite bind_self, io_run. cbn [snd].
  unfold bind at 1. cbn [open_append modify].
  match goal with |- context [snd (?k ?u ?w1)] =>
    assert (P : preserves (k u)) end.
  { apply preserves_bind; [apply preserves_write | intros _].
    apply preserves_bind.
    { destruct (Py.truthy_opt (queue j)); [|apply preserves_ret].
      apply preserves_bind; [apply preserves_assert | intros _; apply preserves_write]. }
    intros _.
    apply preserves_bind; [apply preserves_write | intros _].
    apply preserves_bind; [apply preserves_of_result | intros t].
    apply preserves_bind; [apply preserves_of_result | intros v].
    repeat (apply preserves_bind; [apply preserves_write | intros _]).
    apply preserves_bind.
    { destruct (Py.truthy_list (modules j));
        [apply preserves_write_modules | apply preserves_ret]. }
    intros _.
    apply preserves_bind.
    { destruct (Py.truthy_opt (conda_env j)); [apply preserves_write | apply preserves_ret]. }
    intros _.
    destruct (Py.truthy (tempdir j)); [|apply preserves_ret].
    apply preserves_bind; [apply preserves_write | intros _; apply preserves_write]. }
  apply P. apply exists_inserted.
Qed.

Lemma init_unfold (a : init_args) (w : world) (t m : Z) (l : string) :
  arg_threads a = PyInt t -> arg_memory a = PyInt m -> arg_linkdir a = Some l ->
  __init__ realpath git_info float_str a w
  = match (_set_filename ;; _write_header git_info float_str)
            (init_object realpath a t m (Some l), world_before_script a l w) with
    | (Ok _, (s, w')) => (Ok s, w')
    | (Raise e, (_, w')) => (Raise e, w')
    end.
Proof.
  intros Ht Hm Hl. unfold __init__, world_before_script. rewrite Ht, Hm, Hl.
  erewrite bind_ok by apply make_dir_some_run.
  erewrite bind_ok by reflexivity.
  erewrite bind_ok by reflexivity.
  erewrite bind_ok by apply make_dir_some_run.
  erewrite bind_ok by apply make_dir_some_run.
  reflexivity.
Qed.

Lemma init_ok_args (a : init_args) (w : world) (j : JobScript) (w' : world) :
  __init__ realpath git_info float_str a w = (Ok j, w') ->
  exists t m l, arg_threads a = PyInt t /\ arg_memory a = PyInt m
                /\ arg_linkdir a = Some l.
Proof.
  intros H. pose proof (init_same_outcome realpath git_info float_str a w) as S.
  rewrite H in S. cbn [fst] in S. unfold init_outcome in S.
  destruct (arg_threads a) as [t| | | |]; try contradiction.
  destruct (arg_memory a) as [m| | | |]; try contradiction.
  destruct (arg_linkdir a) as [l|]; [|contradiction].
  now exists t, m, l.
Qed.

End AfterInit.

Section Constructed.

Variable realpath : string -> string.
Variable git_info : string.
Variable float_str : spec_float -> string.

Lemma dirs_made_world (a : init_args) (l : string) (w : world) :
  arg_linkdir a = Some l ->
  snd (dirs_made a w)
  = snd (_make_dir (Some (PosixPath.join (fst (PosixPath.split (arg_outdir a))) ["sh"]))
           (world_before_script a l w)).
Proof. intros Hl. rewrite dirs_made_run, Hl. reflexivity. Qed.

(** How a construction that returns went: the script path was free, or a
    scratch name was found. *)
Lemma init_ok_cases (a : init_args) (w : world) (j : JobScript) (w' : world) :
  __init__ realpath git_info float_str a w = (Ok j, w') ->
  exists t m l,
    arg_threads a = PyInt t /\ arg_memory a = PyInt m /\ arg_linkdir a = Some l
    /\ ((os_path_exists (script_path a) (snd (dirs_made a w)) = false
         /\ j = with_filename (script_path a) (init_object realpath a t m (Some l))
         /\ _write_header git_info float_str (j, snd (dirs_made a w)) = (Ok tt, (j, w')))
        \/ (os_path_exists (script_path a) (snd (dirs_made a w)) = true
            /\ exists n rest,
                 first_fresh (tmp_names (snd (dirs_made a w))) (snd (dirs_made a w))
                 = Some (n, rest)
                 /\ j = with_delete_sh true
                          (with_filename n
                             (with_filename (script_path a)
                                (init_object realpath a t m (Some l))))
                 /\ _write_header git_info float_str
                      (j, World (<[n := ""]> (files (snd (dirs_made a w))))
                            (dirs (snd (dirs_made a w))) rest)
                    = (Ok tt, (j, w')))).
Proof.
  intros H. destruct (init_ok_args realpath git_info float_str a w j w' H)
    as (t & m & l & Ht & Hm & Hl).
  exists t, m, l. split; [exact Ht | split; [exact Hm | split; [exact Hl|]]].
  rewrite (init_unfold realpath git_info float_str a w t m l Ht Hm Hl) in H.
  unfold bind in H. rewrite set_filename_run in H.
  rewrite (dirs_made_world a l w Hl).
  cbn [outdir jobname init_object] in H.
  change (PosixPath.join (fst (PosixPath.split (arg_outdir a)))
            ["sh"; (arg_sample_name a ++ "_" ++ arg_job_suffix a) ++ ".sh"])
    with (script_path a) in H.
  match type of H with context [os_path_exists _ ?w1] => set (w4 := w1) in * end.
  destruct (os_path_exists (script_path a) w4) eqn:Hex.
  - right. split; [reflexivity|].
    destruct (first_fresh (tmp_names w4) w4) as [[n rest]|]; [|discriminate H].
    exists n, rest. split; [reflexivity|].
    match type of H with context [_write_header _ _ (?j0, ?w5)] =>
      destruct (write_header_outcome git_info float_str j0 w5) as (w'' & E & _);
      rewrite E in H; destruct (header_outcome j0) as [[]|e] eqn:Ho end;
      [|discriminate H].
    injection H as <- <-. split; [reflexivity | exact E].
  - left. split; [reflexivity|].
    match type of H with context [_write_header _ _ (?j0, ?w5)] =>
      destruct (write_header_outcome git_info float_str j0 w5) as (w'' & E & _);
      rewrite E in H; destruct (header_outcome j0) as [[]|e] eqn:Ho end;
      [|discriminate H].
    injection H as <- <-. split; [reflexivity | exact E].
Qed.

Lemma header_ok_values (j : JobScript) (w w' : world) :
  _write_header git_info float_str (j, w) = (Ok tt, (j, w')) ->
  exists t q,
    PyFloat.of_int (threads j) = Ok t /\ PyFloat.int_div (memory j) t = Ok q
    /\ appended (filename j)
         (header_head j ++ h_vmem_line float_str q ++ header_tail git_info j) w w'.
Proof.
  intros H. destruct (write_header_outcome git_info float_str j w) as (w1 & E & _).
  rewrite H in E. unfold header_outcome in E.
  destruct (queue_accepted (queue j)) eqn:Hq; [|discriminate E].
  destruct (PyFloat.of_int (threads j)) as [t|] eqn:Ht; [|discriminate E].
  destruct (PyFloat.int_div (memory j) t) as [q|] eqn:Hd; [|discriminate E].
  exists t, q. split; [first [exact Ht | reflexivity] | split; [exact Hd|]].
  destruct (write_header_run git_info float_str j w t q Hq Ht Hd) as (w2 & E2 & A & _).
  rewrite H in E2. injection E2 as <-. exact A.
Qed.

Lemma contents_nonempty f w c s :
  contents f w = String c s -> files w !! f = Some (String c s).
Proof.
  unfold contents. destruct (files w !! f) as [x|]; cbn;
    [intros ->; reflexivity | discriminate].
Qed.

Lemma not_exists_no_file p w : os_path_exists p w = false -> files w !! p = None.
Proof.
  unfold os_path_exists. intros H. apply orb_false_iff in H. destruct H as [H _].
  apply bool_decide_eq_false in H. destruct (files w !! p); [|reflexivity].
  exfalso. apply H. eauto.
Qed.

(** X9: a job that [__init__] returns has empty lists of inputs, outputs,
    temporaries and softlinks, is named [<sample>_<suffix>], and its script
    holds exactly the header: nothing before it and nothing after. The
    script is at [<parent of outdir>/sh/<jobname>.sh] unless the job was
    redirected. *)
Theorem constructed_job_script_is_header (a : init_args) (w : world)
    (j : JobScript) (w' : world) :
  __init__ realpath git_info float_str a w = (Ok j, w') ->
  exists t q,
    PyFloat.of_int (threads j) = Ok t /\ PyFloat.int_div (memory j) t = Ok q
    /\ files w' !! filename j
       = Some (header_head j ++ h_vmem_line float_str q ++ header_tail git_info j)
    /\ input_files_to_copy j = [] /\ output_files_to_copy j = []
    /\ temp_files_to_delete j = [] /\ softlinks j = []
    /\ jobname j = arg_sample_name a ++ "_" ++ arg_job_suffix a
    /\ (if delete_sh j then filename j <> script_path a
        else filename j = script_path a).
Proof.
  intros H.
  destruct (init_ok_cases a w j w' H) as (t & m & l & _ & _ & _ & [C|C]).
  - destruct C as (Hex & Hj & Hh).
    destruct (header_ok_values j _ w' Hh) as (ft & q & Ht & Hq & A).
    exists ft, q. split; [exact Ht | split; [exact Hq|]].
    assert (Hc : contents (filename j) (snd (dirs_made a w)) = "").
    { unfold contents. rewrite Hj at 1. cbn [filename with_filename].
      now rewrite (not_exists_no_file _ _ Hex). }
    unfold appended in A. rewrite Hc in A.
    split; [apply contents_nonempty; exact A|].
    rewrite Hj. cbn. repeat split.
  - destruct C as (Hex & n & rest & Hf & Hj & Hh).
    destruct (header_ok_values j _ w' Hh) as (ft & q & Ht & Hq & A).
    exists ft, q. split; [exact Ht | split; [exact Hq|]].
    assert (Hc : contents (filename j)
                   (World (<[n := ""]> (files (snd (dirs_made a w))))
                      (dirs (snd (dirs_made a w))) rest) = "").
    { unfold contents. rewrite Hj at 1. cbn [filename with_filename with_delete_sh files].
      now rewrite lookup_insert_eq. }
    unfold appended in A. rewrite Hc in A.
    split; [apply contents_nonempty; exact A|].
    apply first_fresh_is_fresh in Hf.
    rewrite Hj.
    cbn [input_files_to_copy output_files_to_copy temp_files_to_delete softlinks
         jobname delete_sh filename with_delete_sh with_filename init_object].
    repeat split. intros Heq. rewrite Heq in Hf. congruence.
Qed.

(** X11: a job constructed without a temp directory works in its output
    directory, and then, whatever is declared later, finalization writes
    neither a copy-outputs block nor the removal of the directory; with a
    temp directory the job works in [realpath(<tempdir>/<jobname>)]. *)
Theorem job_without_tempdir_works_in_outdir (a : init_args) (w : world)
    (j : JobScript) (w' : world) :
  __init__ realpath git_info float_str a w = (Ok j, w') ->
  outdir j = arg_outdir a
  /\ (Py.truthy_opt (arg_tempdir a) = true ->
      tempdir j = realpath (PosixPath.join (default "" (arg_tempdir a)) [jobname j]))
  /\ (Py.truthy_opt (arg_tempdir a) = false ->
      tempdir j = arg_outdir a
      /\ forall j', tempdir j' = tempdir j -> outdir j' = outdir j ->
           copy_block realpath j' = "" /\ rmdir_block realpath j' = "").
Proof.
  intros H.
  destruct (init_ok_cases a w j w' H) as (t & m & l & _ & _ & _ & C).
  assert (Hj : outdir j = arg_outdir a
               /\ jobname j = arg_sample_name a ++ "_" ++ arg_job_suffix a
               /\ tempdir j = if Py.truthy_opt (arg_tempdir a)
                              then realpath (PosixPath.join (default "" (arg_tempdir a))
                                               [arg_sample_name a ++ "_" ++ arg_job_suffix a])
                              else arg_outdir a).
  { destruct C as [(_ & -> & _)|(_ & n & rest & _ & -> & _)]; cbn; repeat split. }
  destruct Hj as (Ho & Hn & Ht).
  split; [exact Ho | split].
  - intros Htd. rewrite Ht, Htd, Hn. reflexivity.
  - intros Htd. rewrite Htd in Ht. split; [exact Ht|].
    intros j' Ht' Ho'.
    assert (Hs : same_dir realpath (tempdir j') (outdir j') = true).
    { unfold same_dir. rewrite Ht', Ho', Ht, Ho. apply String.eqb_refl. }
    unfold copy_block, rmdir_block. rewrite Hs.
    split; [destruct (output_files_to_copy j'); reflexivity|].
    now rewrite andb_false_r.
Qed.

End Constructed.

Section RejectedQueue.

Variable realpath : string -> string.
Variable git_info : string.
Variable float_str : spec_float -> string.





End RejectedQueue.

(** *** Command builders *)

(** [make_md5sum] raises [NameError] on every call (it opens
    [job.filename], and no [job] is in scope): no md5sum command is written
    and no path is returned. *)
Lemma make_md5sum_raises (fn : string) (j : JobScript) (w : world) :
  make_md5sum fn (j, w) = (Raise NameError, (j, w)).
Proof. reflexivity. Qed.

Lemma contains_elem_join (sep x e : string) (l : list string) :
  In e l -> Py.contains x e = true -> Py.contains x (Py.join sep l) = true.
Proof.
  intros Hin Hx. induction l as [|y l IH]; [contradiction|].
  destruct l as [|z l].
  - destruct Hin as [->|[]]. exact Hx.
  - change (Py.join sep (y :: z :: l)) with (y ++ sep ++ Py.join sep (z :: l)).
    destruct Hin as [->|Hin].
    + now apply contains_app_l.
    + apply contains_app_r, contains_app_r, IH, Hin.
Qed.

(** X13: [picard_merge] appends one MergeSamFiles command to the job's
    script and to no other file, and returns the output path it was given;
    the command names every input bam as an [I=] operand and the output as
    the [O=] operand, whether or not it is sent to the background. *)
Theorem picard_merge_names_every_bam (bams : list string)
    (out_bam picard_path : string) (picard_memory : Z) (picard_tempdir : string)
    (bg : bool) (j : JobScript) (w : world) :
  let text := picard_merge_lines bams out_bam picard_path picard_memory
                picard_tempdir bg in
  returns (picard_merge bams out_bam picard_path picard_memory picard_tempdir bg)
    j j out_bam (filename j) text w
  /\ (forall bam, In bam bams -> Py.contains ("I=" ++ bam) text = true)
  /\ Py.contains ("O=" ++ out_bam) text = true.
Proof.
  cbn zeta. split; [|split].
  - unfold returns, picard_merge. rewrite bind_self.
    destruct (io_open_write j (filename j)
                (picard_merge_lines bams out_bam picard_path picard_memory
                   picard_tempdir bg) w) as (w1 & E & A & U).
    exists w1. erewrite bind_ok by exact E. repeat split; assumption.
  - intros bam Hin. unfold picard_merge_lines. apply contains_app_l.
    apply (contains_elem_join _ _ (Py.tab ++ "I=" ++ bam)).
    + apply in_or_app. right. apply in_or_app. left.
      apply (in_map (fun b => Py.tab ++ "I=" ++ b)). exact Hin.
    + apply contains_app_r. rewrite <- (append_nil_r ("I=" ++ bam)) at 2.
      apply contains_self_app.
  - unfold picard_merge_lines. apply contains_app_l.
    apply (contains_elem_join _ _ (Py.tab ++ "O=" ++ out_bam)).
    + apply in_or_app. right. apply in_or_app. right. now left.
    + apply contains_app_r. rewrite <- (append_nil_r ("O=" ++ out_bam)) at 2.
      apply contains_self_app.
Qed.

Lemma picard_merge_names_every_bam_witness :
  In "b.bam" ["a.bam"; "b.bam"]
  /\ Py.contains "I=b.bam"
       (picard_merge_lines ["a.bam"; "b.bam"] "m.bam" "$picard" 2 "." true) = true.
Proof.
  split; [right; now left|].
  apply (proj1 (proj2 (picard_merge_names_every_bam ["a.bam"; "b.bam"] "m.bam"
                         "$picard" 2 "." true sort_job empty_world))).
  right. now left.
Defined.

(** *** The construction properties on sample arguments *)

Lemma constructed_job_script_is_header_witness :
  exists j w',
    __init__ realpath_plain "v1.0" whole_float_str align_args empty_world = (Ok j, w')
    /\ temp_files_to_delete j = []
    /\ jobname j = "S1_alignment"
    /\ exists q,
         files w' !! filename j
         = Some (header_head j ++ h_vmem_line whole_float_str q ++ header_tail "v1.0" j).
Proof.
  destruct (__init__ realpath_plain "v1.0" whole_float_str align_args empty_world)
    as [[j|e] w'] eqn:E.
  - exists j, w'. split; [reflexivity|].
    destruct (constructed_job_script_is_header realpath_plain "v1.0" whole_float_str
                align_args empty_world j w' E)
      as (t & q & _ & _ & F & _ & _ & T & _ & N & _).
    split; [exact T | split; [exact N|]]. exists q. exact F.
  - pose proof (f_equal fst E) as F. vm_compute in F. discriminate F.
Defined.

Lemma job_without_tempdir_works_in_outdir_witness :
  Py.truthy_opt (arg_tempdir in_outdir_args) = false
  /\ exists j w',
       __init__ realpath_plain "v1.0" whole_float_str in_outdir_args empty_world
       = (Ok j, w')
       /\ tempdir j = "/out/alignment"
       /\ copy_block realpath_plain (with_output_files_to_copy ["S1.bam"] j) = "".
Proof.
  split; [reflexivity|].
  destruct (__init__ realpath_plain "v1.0" whole_float_str in_outdir_args empty_world)
    as [[j|e] w'] eqn:E.
  - exists j, w'. split; [reflexivity|].
    destruct (job_without_tempdir_works_in_outdir realpath_plain "v1.0" whole_float_str
                in_outdir_args empty_world j w' E) as (_ & _ & H).
    destruct (H eq_refl) as (T & B). split; [exact T|].
    exact (proj1 (B (with_output_files_to_copy ["S1.bam"] j) eq_refl eq_refl)).
  - pose proof (f_equal fst E) as F. vm_compute in F. discriminate F.
Defined.


Lemma init_keeps_existing_script_witness :
  is_Some (files world_with_alignment_script !! script_path align_args)
  /\ files (snd (__init__ realpath_plain "v1.0" whole_float_str align_args
                   world_with_alignment_script)) !! "/out/sh/S1_alignment.sh"
     = Some "#!/bin/bash".
Proof.
  assert (H : is_Some (files world_with_alignment_script !! script_path align_args)).
  { exists "#!/bin/bash". reflexivity. }
  split; [exact H|].
  exact (proj1 (init_keeps_existing_script realpath_plain "v1.0" whole_float_str
                  align_args world_with_alignment_script H)).
Defined.
